(** * PR Review Agent client: the submission cycle and the result view

    A shallow embedding of [src/app/page.tsx] (the [Home] component, first
    version in the file: the one with [errorType] and [retryAfter]).

    - [Js]: the fragment of the JavaScript runtime the component relies on
      (truthiness, [ToString], [String.prototype.includes], [parseInt],
      JSON values, thrown values, completions).
    - the data model of the file ([ReviewComment] ... [ReviewResponse]) and
      the component state (the six [useState] cells).
    - [handleSubmit], in an exception-and-state monad that also records what
      the page shows at each [await].
    - the decision logic of the JSX: error panel, statistics strip and the
      location line of a comment, as React element trees.

    Class names and other styling are left out: they decide nothing. *)

From Stdlib Require Import ZArith String Ascii List Lia Bool.
From stdpp Require Import base gmap strings pretty.

Open Scope string_scope.
Open Scope Z_scope.

Set Warnings "-register-all".

(* ===================================================================== *)
(** ** The JavaScript runtime fragment                                    *)
(* ===================================================================== *)

Module Js.

(** A completion of an evaluation: a value, or a thrown value. *)
Inductive Completion (E A : Type) : Type :=
| Normal (a : A)
| Abrupt (e : E).
Arguments Normal {E A} a.
Arguments Abrupt {E A} e.

(** Numbers that are integers, infinite or NaN: what [parseInt] returns and
    what the integer fields of the payload hold.  [Int z] is a safe integer
    (|z| < 2^53; [-0] and [+0] are both [Int 0], they are equally falsy and
    print the same).  [Big z] is a double of a larger magnitude, which is an
    integer too: [z] is its exact value. *)
Inductive Number : Type :=
| NaN
| Int (z : Z)
| Big (z : Z)
| Infinity (negative : bool).

Definition Number_truthy (n : Number) : bool :=
  match n with
  | NaN => false
  | Int z => negb (z =? 0)
  | Big _ | Infinity _ => true
  end.

(** The double nearest to the integer [m > 0], ties to the even mantissa,
    as an integer; [None] when [m] rounds beyond the largest double. *)
Definition round_to_double (m : Z) : option Z :=
  let e := Z.log2 m + 1 - 53 in
  if e <=? 0 then Some m
  else
    let q := Z.shiftr m e in
    let rest := m - Z.shiftl q e in
    let half := Z.shiftl 1 (e - 1) in
    let q' :=
      if (half <? rest) || ((rest =? half) && Z.odd q) then q + 1 else q in
    let v := Z.shiftl q' e in
    if 2 ^ 1024 <=? v then None else Some v.

(** The Number value of a mathematical integer. *)
Definition Number_of_integer (z : Z) : Number :=
  if Z.abs z <? 2 ^ 53 then Int z
  else match round_to_double (Z.abs z) with
       | Some v => Big (Z.sgn z * v)
       | None => Infinity (z <? 0)
       end.

(** [Number.isSafeInteger]. *)
Definition isSafeInteger (z : Z) : Prop := - 2 ^ 53 < z < 2 ^ 53.

(** The number of decimal digits of [m > 0]. *)
Definition decimal_length (m : Z) : Z := Z.of_nat (String.length (pretty m)).

(** The shortest numeral that reads back as the double [m > 0] of [n]
    digits: the least [k], with the [s] of [k] digits nearest to [m], such
    that [s * 10^(n-k)] rounds to [m]. *)
Fixpoint shortest_digits (fuel : nat) (k n m : Z) : Z * Z :=
  match fuel with
  | O => (n, m)
  | S fuel' =>
      let p := 10 ^ (n - k) in
      let lo := m / p in
      let hi := lo + 1 in
      let reads_back s :=
        match round_to_double (s * p) with
        | Some v => v =? m
        | None => false
        end in
      let ok_lo := reads_back lo in
      let ok_hi := (hi <? 10 ^ k) && reads_back hi in
      if ok_lo && ok_hi then
        (k, if m - lo * p <=? hi * p - m then lo else hi)
      else if ok_lo then (k, lo)
      else if ok_hi then (k, hi)
      else shortest_digits fuel' (k + 1) n m
  end.

Fixpoint zeros (count : nat) : string :=
  match count with
  | O => EmptyString
  | S c => String "0" (zeros c)
  end.

(** [Number::toString] of a double [m >= 2^53]: the shortest digits, filled
    with zeros up to 21 digits, and in exponent form beyond. *)
Definition Number_toString_big (m : Z) : string :=
  let n := decimal_length m in
  let '(k, s) := shortest_digits (Z.to_nat n) 1 n m in
  let digits := pretty s in
  if n <=? 21 then digits +:+ zeros (Z.to_nat (n - k))
  else
    match digits with
    | String d EmptyString => String d ("e+" +:+ pretty (n - 1))
    | String d more => String d ("." +:+ more +:+ "e+" +:+ pretty (n - 1))
    | EmptyString => EmptyString
    end.

(** [Number::toString], radix 10.  A safe integer prints as its decimal
    numeral. *)
Definition Number_toString (n : Number) : string :=
  match n with
  | NaN => "NaN"
  | Int z => pretty z
  | Big z =>
      if z <? 0 then "-" +:+ Number_toString_big (- z)
      else Number_toString_big z
  | Infinity true => "-Infinity"
  | Infinity false => "Infinity"
  end.

(** Truthiness of a string: non-empty. *)
Definition String_truthy (s : string) : bool :=
  match s with
  | EmptyString => false
  | String _ _ => true
  end.

(** [s.includes(needle)]. *)
Fixpoint includes (needle s : string) : bool :=
  String.prefix needle s ||
  match s with
  | EmptyString => false
  | String _ s' => includes needle s'
  end.

(** *** [parseInt(string)] with the radix left out

    The argument here is a header value, whose code units are its bytes, so
    the white space that can occur is TAB, LF, VT, FF, CR, SP and NBSP.
    The integer that the digits write is turned into the nearest double
    (V8 reads all the digits; the standard lets an implementation drop
    those after the twentieth). *)

Definition is_white_space (c : ascii) : bool :=
  let n := Z.of_nat (nat_of_ascii c) in
  ((9 <=? n) && (n <=? 13)) || (n =? 32) || (n =? 160).

Fixpoint trim_start (s : string) : string :=
  match s with
  | String c s' => if is_white_space c then trim_start s' else s
  | EmptyString => s
  end.

(** The value of [c] as a digit of radix [R], if it is one. *)
Definition digit_value (R : Z) (c : ascii) : option Z :=
  let n := Z.of_nat (nat_of_ascii c) in
  let d :=
    if (48 <=? n) && (n <=? 57) then Some (n - 48)
    else if (97 <=? n) && (n <=? 122) then Some (n - 87)
    else if (65 <=? n) && (n <=? 90) then Some (n - 55)
    else None in
  match d with
  | Some v => if v <? R then Some v else None
  | None => None
  end.

(** The integer written by the longest prefix of radix-[R] digits of [s];
    [acc] is [None] until a digit has been read. *)
Fixpoint parse_digits (R : Z) (s : string) (acc : option Z) : option Z :=
  match s with
  | String c s' =>
      match digit_value R c with
      | Some d => parse_digits R s' (Some (default 0 acc * R + d))
      | None => acc
      end
  | EmptyString => acc
  end.

Definition parseInt (input : string) : Number :=
  let S0 := trim_start input in
  let '(sign, S1) :=
    match S0 with
    | String "-" r => (-1, r)
    | String "+" r => (1, r)
    | _ => (1, S0)
    end in
  let '(R, S2) :=
    match S1 with
    | String "0" (String "x" r) => (16, r)
    | String "0" (String "X" r) => (16, r)
    | _ => (10, S1)
    end in
  match parse_digits R S2 None with
  | None => NaN
  | Some mathInt => Number_of_integer (sign * mathInt)
  end.

(** *** JSON values, as [response.json()] produces them

    A JSON number is carried by its [Number::toString] rendering, which
    determines it (up to the sign of zero); [JSON.parse] never yields NaN.
    An object is the list of its members in source order; of a repeated key
    the last member counts. *)
Inductive Json : Type :=
| JNull
| JBool (b : bool)
| JNum (repr : string)
| JStr (s : string)
| JArr (items : list Json)
| JObj (members : list (string * Json)).

(** [ToBoolean]. *)
Definition ToBoolean (v : Json) : bool :=
  match v with
  | JNull => false
  | JBool b => b
  | JNum repr => negb (String.eqb repr "0")
  | JStr s => String_truthy s
  | JArr _ | JObj _ => true
  end.

(** *** Thrown values *)

Inductive ErrorClass : Type :=
| ClsError
| ClsTypeError
| ClsSyntaxError
| ClsDOMException.

Record ErrorObject : Type := mkError {
  class : ErrorClass;
  message : string
}.

(** Anything can be thrown; what is not an [Error] has no [message]. *)
Inductive Thrown : Type :=
| ThrownError (e : ErrorObject)
| ThrownOther.

Definition instanceof_Error (t : Thrown) : bool :=
  match t with
  | ThrownError _ => true
  | ThrownOther => false
  end.

Definition instanceof_TypeError (t : Thrown) : bool :=
  match t with
  | ThrownError {| class := ClsTypeError |} => true
  | _ => false
  end.

(** The own property [key] of a parsed object: the last member so named. *)
Fixpoint own_property (key : string) (members : list (string * Json))
  : option Json :=
  match members with
  | [] => None
  | (k, v) :: rest =>
      match own_property key rest with
      | Some later => Some later
      | None => if String.eqb k key then Some v else None
      end
  end.

(** *** [ToString] and [new Error] *)

(** Elements separated by commas, the way [Array.prototype.join] does. *)
Fixpoint join_comma (parts : list string) : string :=
  match parts with
  | [] => EmptyString
  | [p] => p
  | p :: rest => p +:+ "," +:+ join_comma rest
  end.

(** The values of a row of evaluations, or the first exception. *)
Fixpoint all_normal {E A} (cs : list (Completion E A))
  : Completion E (list A) :=
  match cs with
  | [] => Normal []
  | Abrupt e :: _ => Abrupt e
  | Normal a :: rest =>
      match all_normal rest with
      | Normal others => Normal (a :: others)
      | Abrupt e => Abrupt e
      end
  end.

(** The message of the TypeError raised when an object has no way to
    become a string (V8's wording). *)
Definition to_primitive_message : string :=
  "Cannot convert object to primitive value".

(** [ToString].  An array prints its elements joined by commas, with
    [null] elements printed as nothing.  An object prints through its
    [toString]: the inherited one gives a fixed tag; an own member of that
    name hides it, and as no JSON value can be called, the conversion then
    fails with a TypeError (the inherited [valueOf] returns the object
    itself, and an own one cannot be called either). *)
Fixpoint ToString (v : Json) : Completion ErrorObject string :=
  match v with
  | JNull => Normal "null"
  | JBool true => Normal "true"
  | JBool false => Normal "false"
  | JNum repr => Normal repr
  | JStr s => Normal s
  | JArr items =>
      match all_normal
              (List.map (fun x => match x with
                                  | JNull => Normal EmptyString
                                  | _ => ToString x
                                  end) items) with
      | Normal parts => Normal (join_comma parts)
      | Abrupt e => Abrupt e
      end
  | JObj members =>
      match own_property "toString" members with
      | Some _ => Abrupt (mkError ClsTypeError to_primitive_message)
      | None => Normal "[object Object]"
      end
  end.

(** [new Error(v)]: the message is [ToString v], whose failure is the
    failure of the construction. *)
Definition new_Error (v : Json) : Completion ErrorObject ErrorObject :=
  match ToString v with
  | Normal text => Normal (mkError ClsError text)
  | Abrupt e => Abrupt e
  end.

(** The message of the TypeError raised by reading a property of [null]
    (V8's wording; SpiderMonkey says "errorData is null", JavaScriptCore
    "null is not an object (evaluating 'errorData.detail')"). *)
Definition null_property_message (key : string) : string :=
  "Cannot read properties of null (reading '" +:+ key +:+ "')".

(** [v.key] for a parsed JSON value [v]: [None] is [undefined].  Reading a
    property of [null] throws; primitives and arrays have no such property
    (the keys read here are not inherited ones). *)
Definition get_property (v : Json) (key : string)
  : Completion Thrown (option Json) :=
  match v with
  | JNull => Abrupt (ThrownError (mkError ClsTypeError (null_property_message key)))
  | JObj members => Normal (own_property key members)
  | _ => Normal None
  end.

(** [v || fallback] for a possibly [undefined] [v] and a string literal. *)
Definition or_string (v : option Json) (fallback : string) : Json :=
  match v with
  | Some j => if ToBoolean j then j else JStr fallback
  | None => JStr fallback
  end.

End Js.

Import Js.

(* ===================================================================== *)
(** ** Data model (the interfaces of page.tsx)                            *)
(* ===================================================================== *)

(** [number] fields are integers here, as the payload's counts and line
    numbers are; [null] and a left-out optional field are [None]. *)
Record ReviewComment : Type := mkComment {
  agent : string;
  line : option Z;
  file : option string;
  c_message : string;
  severity : string;
  suggestion : option string
}.

Record ReviewStats : Type := mkStats {
  total_comments : Z;
  by_agent : gmap string Z;
  by_severity : gmap string Z
}.

Record ReviewResult : Type := mkResult {
  comments : list ReviewComment;
  stats : ReviewStats;
  summary : string
}.

Record ReviewResponse : Type := mkResponse {
  r_status : string;
  review : ReviewResult
}.

(** The failure categories: the string literals of the [errorType] cell. *)
Inductive ErrorType : Type :=
| rate_limit
| server
| network
| validation
| general.

Definition ErrorType_eqb (a b : ErrorType) : bool :=
  match a, b with
  | rate_limit, rate_limit | server, server | network, network
  | validation, validation | general, general => true
  | _, _ => false
  end.

(** The [useState] cells of [Home]. *)
Record State : Type := mkState {
  prUrl : string;
  loading : bool;
  result : option ReviewResponse;
  error : option string;
  errorType : option ErrorType;
  retryAfter : option Number
}.

(* ===================================================================== *)
(** ** The network, as [handleSubmit] sees it                             *)
(* ===================================================================== *)

Record Request : Type := mkRequest {
  url : string;
  method : string;
  headers : list (string * string);
  body : Json            (* the value handed to JSON.stringify *)
}.

(** A response that [fetch] resolved to.  [status] is an unsigned short,
    hence a safe integer; [json] is how [response.json()] settles, on
    either path; [Retry_After] is [response.headers.get('Retry-After')]. *)
Record Response : Type := mkHttp {
  status : Z;
  statusText : string;
  Retry_After : option string;
  json : Completion Thrown Json
}.

(** [response.ok]: the status is in the range 200-299. *)
Definition ok (response : Response) : bool :=
  (200 <=? status response) && (status response <=? 299).

(** What surrounds the component: the configured base URL
    ([process.env.NEXT_PUBLIC_SERVER_URL], possibly undefined), the outcome
    of [fetch] for a request, and how a parsed body reads at the type
    [ReviewResponse].  The annotation of line 105 is not checked when the
    code runs, so the reading is left free: it is the review itself on a
    body of that shape, and nothing is assumed of it elsewhere. *)
Record Env : Type := mkEnv {
  SERVER_URL : option string;
  fetch : Request -> Completion Thrown Response;
  as_ReviewResponse : Json -> ReviewResponse
}.

(* ===================================================================== *)
(** ** The monad of an event handler                                      *)
(* ===================================================================== *)

(** An [await] suspends the handler; the page then shows the cells as they
    are at that moment.  The log keeps these moments, oldest first. *)
Inductive Event : Type :=
| AwaitFetch (req : Request) (shown : State)
| AwaitJson (shown : State).

Record World : Type := mkWorld {
  ui : State;
  log : list Event
}.

(** State passing with exceptions. *)
Definition M (A : Type) : Type := World -> World * Completion Thrown A.

Definition ret {A} (a : A) : M A := fun w => (w, Normal a).

Definition bind {A B} (m : M A) (k : A -> M B) : M B :=
  fun w =>
    match m w with
    | (w', Normal a) => k a w'
    | (w', Abrupt e) => (w', Abrupt e)
    end.

Definition throw {A} (e : Thrown) : M A := fun w => (w, Abrupt e).

(** An evaluation that touches no cell. *)
Definition lift {A} (c : Completion Thrown A) : M A := fun w => (w, c).

(** [try { m } catch (err) { handler err }]. *)
Definition try_catch {A} (m : M A) (handler : Thrown -> M A) : M A :=
  fun w =>
    match m w with
    | (w', Normal a) => (w', Normal a)
    | (w', Abrupt e) => handler e w'
    end.

(** [try { m } finally { cleanup }]: the cleanup runs on every exit; when it
    throws, its exception replaces the completion of [m]. *)
Definition try_finally {A} (m : M A) (cleanup : M unit) : M A :=
  fun w =>
    match m w with
    | (w', c) =>
        match cleanup w' with
        | (w'', Normal _) => (w'', c)
        | (w'', Abrupt e) => (w'', Abrupt e)
        end
    end.

Notation "x <- m ;; k" := (bind m (fun x => k))
  (at level 100, m at next level, k at level 200, right associativity).
Notation "m ;; k" := (bind m (fun _ => k))
  (at level 100, k at level 200, right associativity).

Definition modify (f : State -> State) : M unit :=
  fun w => (mkWorld (f (ui w)) (log w), Normal tt).

Definition read {A} (f : State -> A) : M A :=
  fun w => (w, Normal (f (ui w))).

Definition record (ev : State -> Event) : M unit :=
  fun w => (mkWorld (ui w) (log w ++ [ev (ui w)]), Normal tt).

(** The setters of the cells. *)
Definition setLoading (v : bool) : M unit :=
  modify (fun s => mkState (prUrl s) v (result s) (error s) (errorType s) (retryAfter s)).
Definition setResult (v : option ReviewResponse) : M unit :=
  modify (fun s => mkState (prUrl s) (loading s) v (error s) (errorType s) (retryAfter s)).
Definition setError (v : option string) : M unit :=
  modify (fun s => mkState (prUrl s) (loading s) (result s) v (errorType s) (retryAfter s)).
Definition setErrorType (v : option ErrorType) : M unit :=
  modify (fun s => mkState (prUrl s) (loading s) (result s) (error s) v (retryAfter s)).
Definition setRetryAfter (v : option Number) : M unit :=
  modify (fun s => mkState (prUrl s) (loading s) (result s) (error s) (errorType s) v).

(** [await fetch(req)] and [await response.json()]. *)
Definition await_fetch (env : Env) (req : Request) : M Response :=
  record (AwaitFetch req) ;; lift (fetch env req).

Definition await_json {A} (settled : Completion Thrown A) : M A :=
  record AwaitJson ;; lift settled.

(* ===================================================================== *)
(** ** [handleSubmit]                                                     *)
(* ===================================================================== *)

(** The request of lines 50-56.  An undefined [SERVER_URL] prints as
    "undefined" in the template literal. *)
Definition review_request (env : Env) (pr_url : string) : Request :=
  mkRequest (default "undefined" (SERVER_URL env) +:+ "/review/pr")
            "POST"
            [("Content-Type", "application/json")]
            (JObj [("pr_url", JStr pr_url)]).

(** [throw new Error(errorData.detail || fallback)]: the read of [detail]
    and the construction of the error can throw themselves. *)
Definition throw_detail_or (errorData : Json) (fallback : string) : M unit :=
  detail <- lift (get_property errorData "detail") ;;
  match new_Error (or_string detail fallback) with
  | Normal err => throw (ThrownError err)
  | Abrupt e => throw (ThrownError e)
  end.

(** Lines 59-64: the body of a failed response, or the status text in its
    place when reading it fails. *)
Definition read_errorData (response : Response) : M Json :=
  try_catch (await_json (json response))
            (fun _ => ret (JObj [("detail", JStr (statusText response))])).

(** Lines 67-102: the [switch] on [response.status]; every arm throws. *)
Definition switch_status (response : Response) (errorData : Json) : M unit :=
  if status response =? 429 then
    setErrorType (Some rate_limit) ;;
    match Retry_After response with
    | Some retryAfterHeader =>
        if String_truthy retryAfterHeader
        then setRetryAfter (Some (parseInt retryAfterHeader))
        else ret tt
    | None => ret tt
    end ;;
    throw_detail_or errorData
      "Rate limit exceeded. Please wait a moment before trying again."
  else if status response =? 400 then
    setErrorType (Some validation) ;;
    throw_detail_or errorData
      "Invalid request. Please check the PR URL and try again."
  else if status response =? 413 then
    setErrorType (Some validation) ;;
    throw_detail_or errorData
      "PR is too large to review. Please try a smaller PR."
  else if (status response =? 500) || (status response =? 502)
          || (status response =? 503) || (status response =? 504) then
    setErrorType (Some server) ;;
    throw_detail_or errorData
      "Server error. Please try again in a few moments."
  else
    setErrorType (Some general) ;;
    throw_detail_or errorData
      ("Error " +:+ Number_toString (Int (status response)) +:+ ": "
       +:+ statusText response).

(** What [setResult(data)] stores: the cell is [ReviewResponse | null], a
    body that is the JSON value [null] stores [null], and any other body
    is stored as the review it is read as. *)
Definition stored_result (env : Env) (data : Json) : option ReviewResponse :=
  match data with
  | JNull => None
  | _ => Some (as_ReviewResponse env data)
  end.

(** Lines 49-106: the [try] block. *)
Definition handleSubmit_try (env : Env) : M unit :=
  pr_url <- read prUrl ;;
  response <- await_fetch env (review_request env pr_url) ;;
  if negb (ok response) then
    errorData <- read_errorData response ;;
    switch_status response errorData
  else
    data <- await_json (json response) ;;
    setResult (stored_result env data).

(** Lines 107-113: the [catch] block.  [err.message] is read only of an
    [Error]. *)
Definition handleSubmit_catch (err : Thrown) : M unit :=
  match err with
  | ThrownError e =>
      if instanceof_TypeError err && includes "fetch" (message e) then
        setErrorType (Some network) ;;
        setError (Some "Cannot connect to the API server. Please check if the server is running.")
      else
        setError (Some (message e))
  | ThrownOther =>
      setError (Some "An unexpected error occurred")
  end.

(** Lines 43-47: what runs before the request is sent. *)
Definition handleSubmit_reset : M unit :=
  setLoading true ;;
  setError None ;;
  setErrorType None ;;
  setRetryAfter None ;;
  setResult None.

(** The handler ([e.preventDefault()] touches no cell). *)
Definition handleSubmit (env : Env) : M unit :=
  handleSubmit_reset ;;
  try_finally
    (try_catch (handleSubmit_try env) handleSubmit_catch)
    (setLoading false).

(** One submission cycle, from the cells [s] to the cells when the handler
    has settled, with the moments it was suspended at and how it settled. *)
Definition run (env : Env) (s : State) : World * Completion Thrown unit :=
  handleSubmit env (mkWorld s []).

Definition after (env : Env) (s : State) : State := ui (fst (run env s)).

(* ===================================================================== *)
(** ** The view: what [Home] returns                                      *)
(* ===================================================================== *)

(** React elements, with the children React keeps: text, numbers and
    elements.  An icon component is an element without children. *)
Inductive Node : Type :=
| Text (s : string)
| Num (n : Number)
| El (tag : string) (children : list Node).

(** A JSX child expression yields a list of kept children: [false], [null],
    [undefined] and the empty string leave nothing, a number stays, also
    when it is [0] or [NaN]. *)
Definition jsx_string (s : string) : list Node :=
  if String_truthy s then [Text s] else [].

Definition jsx_opt_string (s : option string) : list Node :=
  match s with
  | Some s => jsx_string s
  | None => []
  end.

Definition jsx_number (n : option Number) : list Node :=
  match n with
  | Some n => [Num n]
  | None => []
  end.

(** [cond && e] for a boolean [cond]. *)
Definition bool_and (cond : bool) (e : list Node) : list Node :=
  if cond then e else [].

(** [s && e] for [s : string | null]: a falsy [s] is the value, and it
    leaves nothing. *)
Definition string_and (s : option string) (e : string -> list Node)
  : list Node :=
  match s with
  | Some s => if String_truthy s then e s else []
  | None => []
  end.

(** [n && e] for [n : number | null]: a falsy number is the value, and
    React keeps it. *)
Definition number_and (n : option Number) (e : Number -> list Node)
  : list Node :=
  match n with
  | Some n => if Number_truthy n then e n else [Num n]
  | None => []
  end.

(** [!n] for [n : number | null]. *)
Definition number_not (n : option Number) : bool :=
  match n with
  | Some n => negb (Number_truthy n)
  | None => true
  end.

(** [errorType === 'literal']. *)
Definition errorType_is (t : option ErrorType) (literal : ErrorType) : bool :=
  match t with
  | Some t => ErrorType_eqb t literal
  | None => false
  end.

(** Visible text of a tree: what the browser prints for it. *)
Fixpoint textContent (n : Node) : string :=
  match n with
  | Text s => s
  | Num n => Number_toString n
  | El _ children =>
      List.fold_right (fun c acc => textContent c +:+ acc) EmptyString children
  end.

(** *** The error panel (lines 152-210) *)

(** Lines 184-188. *)
Definition wait_hint (n : Number) : Node :=
  El "p" [Text "⏱️ Please wait approximately "; Num n;
          Text " seconds before retrying."].

(** Lines 189-193. *)
Definition generic_tip : Node :=
  El "p" [Text "💡 Tip: Wait a few minutes before submitting another review request."].

(** Lines 184-193: the two hints of the rate-limit category. *)
Definition rate_limit_hints (s : State) : list Node :=
  bool_and (errorType_is (errorType s) rate_limit)
           (number_and (retryAfter s) (fun n => [wait_hint n]))
  ++ bool_and (errorType_is (errorType s) rate_limit)
              (bool_and (number_not (retryAfter s)) [generic_tip]).

(** Lines 194-198. *)
Definition network_tip (base : option string) (s : State) : list Node :=
  bool_and (errorType_is (errorType s) network)
    [El "p" [Text "💡 Tip: Make sure the API server is running at ";
             El "code" (jsx_opt_string base)]].

(** Lines 199-206: the button that calls [handleSubmit] again. *)
Definition retry_button (s : State) : list Node :=
  bool_and (errorType_is (errorType s) server
            || errorType_is (errorType s) general)
    [El "button" [Text "Try Again"]].

(** Lines 168-175. *)
Definition error_title (s : State) : Node :=
  El "h3"
    (bool_and (errorType_is (errorType s) rate_limit) [Text "Rate Limit Exceeded"]
     ++ bool_and (errorType_is (errorType s) validation) [Text "Invalid Request"]
     ++ bool_and (errorType_is (errorType s) network) [Text "Connection Error"]
     ++ bool_and (errorType_is (errorType s) server) [Text "Server Error"]
     ++ bool_and (errorType_is (errorType s) general) [Text "Error"]
     ++ bool_and (match errorType s with None => true | Some _ => false end)
                 [Text "Error"]).

Definition errorPanel (base : option string) (s : State) : list Node :=
  string_and (error s) (fun msg =>
    [El "div"
       [El "div"
          [(if errorType_is (errorType s) rate_limit
            then El "Clock" [] else El "AlertCircle" []);
           El "div"
             ([error_title s; El "p" (jsx_string msg)]
              ++ rate_limit_hints s
              ++ network_tip base s
              ++ retry_button s)]]]).

(** *** The result panel (lines 212-305) *)

(** [m.key > 0] for a [Record<string, number>]: an absent key reads
    [undefined], and [undefined > 0] is false. *)
Definition positive (count : option Z) : bool :=
  match count with
  | Some n => 0 <? n
  | None => false
  end.

(** One tile of the statistics strip. *)
Definition tile (title : string) (count : option Z) : Node :=
  El "div" [El "h4" [Text title]; El "div" (jsx_number (Int <$> count))].

(** Lines 227-250. *)
Definition statsStrip (st : ReviewStats) : list Node :=
  [tile "Total Issues" (Some (total_comments st))]
  ++ bool_and (positive (by_severity st !! "high"))
              [tile "High Severity" (by_severity st !! "high")]
  ++ bool_and (positive (by_severity st !! "medium"))
              [tile "Medium Severity" (by_severity st !! "medium")]
  ++ bool_and (positive (by_severity st !! "low"))
              [tile "Low Severity" (by_severity st !! "low")].

(** Lines 282-288: the location line of a comment. *)
Definition locationLine (c : ReviewComment) : list Node :=
  string_and (file c) (fun f =>
    [El "p"
       ([El "Folder" []]
        ++ jsx_string f
        ++ number_and (Int <$> line c)
             (fun n => jsx_string (" : Line " +:+ Number_toString n)))]).

(** Lines 265-299: one comment. *)
Definition commentCard (c : ReviewComment) : Node :=
  El "div"
    ([El "div" [El "span" (jsx_string (agent c));
                El "span" (jsx_string (severity c))]]
     ++ locationLine c
     ++ [El "p" (jsx_string (c_message c))]
     ++ string_and (suggestion c) (fun sg =>
          [El "div" [El "strong" [El "Lightbulb" []; Text "Suggestion:"];
                     El "p" (jsx_string sg)]])).

(** Lines 212-305. *)
Definition resultPanel (r : option ReviewResponse) : list Node :=
  match r with
  | None => []
  | Some r =>
      [El "div"
         ([El "h2" [Text "Review Results"]]
          ++ bool_and (String_truthy (summary (review r)))
               [El "div" [El "h3" [El "BarChart3" []; Text "Review Summary"];
                          El "p" (jsx_string (summary (review r)))]]
          ++ [El "div" [El "div" (statsStrip (stats (review r)))]]
          ++ [El "div"
                [El "h3" [El "MessageSquare" []; Text "Review Comments"];
                 match comments (review r) with
                 | [] => El "p" [Text "No issues found! "; El "PartyPopper" []]
                 | cs => El "div" (List.map commentCard cs)
                 end]])]
  end.

(* ===================================================================== *)
(** ** What the specification says, in its own words                      *)
(* ===================================================================== *)

(** The table of section 4.2: the category of a failed status. *)
Definition spec_category (st : Z) : ErrorType :=
  match st with
  | 429 => rate_limit
  | 400 | 413 => validation
  | 500 | 502 | 503 | 504 => server
  | _ => general
  end.

(** Section 4.3, the location of a comment: [file] alone, or
    [file : Line N] when [line] is also present; nothing when [file] is
    absent.  Present is read as not [null]. *)
Definition spec_location (c : ReviewComment) : option string :=
  match file c, line c with
  | Some f, None => Some f
  | Some f, Some n => Some (f +:+ " : Line " +:+ pretty n)
  | None, _ => None
  end.

(** The text of the location line that is rendered, if one is. *)
Definition location_text (c : ReviewComment) : option string :=
  match locationLine c with
  | [] => None
  | n :: _ => Some (textContent n)
  end.

(* ===================================================================== *)
(** ** Summaries of one cycle, used to state the results                  *)
(* ===================================================================== *)

(** The cells right after lines 43-47. *)
Definition reset_state (s : State) : State :=
  mkState (prUrl s) true None None None None.

(** The fixed message of the network category (line 110). *)
Definition connectivity_message : string :=
  "Cannot connect to the API server. Please check if the server is running.".

(** The condition of line 108. *)
Definition is_fetch_TypeError (err : Thrown) : bool :=
  match err with
  | ThrownError e => instanceof_TypeError err && includes "fetch" (message e)
  | ThrownOther => false
  end.

(** The message of line 112. *)
Definition caught_message (err : Thrown) : string :=
  match err with
  | ThrownError e => message e
  | ThrownOther => "An unexpected error occurred"
  end.

(** The second operand of [||] in each arm of the switch. *)
Definition fallback_message (r : Response) : string :=
  if status r =? 429 then
    "Rate limit exceeded. Please wait a moment before trying again."
  else if status r =? 400 then
    "Invalid request. Please check the PR URL and try again."
  else if status r =? 413 then
    "PR is too large to review. Please try a smaller PR."
  else if (status r =? 500) || (status r =? 502)
          || (status r =? 503) || (status r =? 504) then
    "Server error. Please try again in a few moments."
  else
    "Error " +:+ Number_toString (Int (status r)) +:+ ": " +:+ statusText r.

(** The error [new Error(v)] leaves in the air: the new one, or the one
    its construction threw. *)
Definition error_of_value (v : Json) : ErrorObject :=
  match new_Error v with
  | Normal err => err
  | Abrupt e => e
  end.

(** What [throw new Error(errorData.detail || fallback)] throws. *)
Definition detail_error (errorData : Json) (fallback : string) : ErrorObject :=
  match errorData with
  | JNull => mkError ClsTypeError (null_property_message "detail")
  | JObj members =>
      error_of_value (or_string (own_property "detail" members) fallback)
  | _ => mkError ClsError fallback
  end.

(** The value of [errorData] after lines 59-64. *)
Definition errorData_of (r : Response) : Json :=
  match json r with
  | Normal j => j
  | Abrupt _ => JObj [("detail", JStr (statusText r))]
  end.

(** The [retryAfter] cell after the switch. *)
Definition retryAfter_of (r : Response) : option Number :=
  if status r =? 429 then
    match Retry_After r with
    | Some h => if String_truthy h then Some (parseInt h) else None
    | None => None
    end
  else None.

(** The cells a caught exception leaves, [finally] included. *)
Definition caught_state (s : State) (err : Thrown) : State :=
  if is_fetch_TypeError err
  then mkState (prUrl s) false None (Some connectivity_message) (Some network) None
  else mkState (prUrl s) false None (Some (caught_message err)) None None.

(** A response with a status in 200-299 whose body is the JSON value
    null. *)
Definition null_body_success (env : Env) (s : State) : Prop :=
  exists r, fetch env (review_request env (prUrl s)) = Normal r
            /\ ok r = true /\ json r = Normal JNull.

(** No stale outcome on the page. *)
Definition clean (s : State) : Prop :=
  result s = None /\ error s = None /\ errorType s = None /\ retryAfter s = None.

Definition shown_at (ev : Event) : State :=
  match ev with
  | AwaitFetch _ shown => shown
  | AwaitJson shown => shown
  end.

(** The error panel of the rate-limit category around given hints. *)
Definition rate_limit_panel (msg : string) (hints : list Node) : list Node :=
  [El "div"
     [El "div"
        [El "Clock" [];
         El "div" ([El "h3" [Text "Rate Limit Exceeded"]; El "p" [Text msg]]
                   ++ hints)]]].

(** The error panel of the network category. *)
Definition network_panel (base : option string) : list Node :=
  [El "div"
     [El "div"
        [El "AlertCircle" [];
         El "div"
           [El "h3" [Text "Connection Error"];
            El "p" [Text connectivity_message];
            El "p" [Text "💡 Tip: Make sure the API server is running at ";
                    El "code" (jsx_opt_string base)]]]]].

(** The three severity tiles: title and key. *)
Definition severity_tiles : list (string * string) :=
  [("High Severity", "high"); ("Medium Severity", "medium");
   ("Low Severity", "low")].

(* ===================================================================== *)
(** ** Sample inputs                                                      *)
(* ===================================================================== *)

Definition idle : State :=
  mkState "https://github.com/owner/repo/pull/123" false None None None None.

Definition empty_review : ReviewResponse :=
  mkResponse "success" (mkResult [] (mkStats 0 ∅ ∅) EmptyString).

(** The cells after an earlier failed cycle. *)
Definition after_a_failure : State :=
  mkState "https://github.com/owner/repo/pull/123" false None
          (Some "Server error. Please try again in a few moments.")
          (Some server) (Some (Int 5)).

Definition SyntaxError_json : Thrown :=
  ThrownError (mkError ClsSyntaxError "Unexpected token '<' is not valid JSON").

Definition TypeError_failed_to_fetch : Thrown :=
  ThrownError (mkError ClsTypeError "Failed to fetch").

(** The rejection of [fetch] in WebKit when the server cannot be reached. *)
Definition TypeError_load_failed : Thrown :=
  ThrownError (mkError ClsTypeError "Load failed").

(** A failed response. *)
Definition failure (st : Z) (text : string) (retry : option string)
    (body : Completion Thrown Json) : Response :=
  mkHttp st text retry body.

Definition too_many_30 : Response :=
  failure 429 "Too Many Requests" (Some "30")
          (Normal (JObj [("detail", JStr "Rate limit exceeded: 5 per 1 minute")])).

Definition too_many_date : Response :=
  failure 429 "Too Many Requests" (Some "Wed, 21 Oct 2015 07:28:00 GMT")
          (Normal (JObj [("detail", JStr "Rate limit exceeded: 5 per 1 minute")])).

Definition too_many_plain : Response :=
  failure 429 "Too Many Requests" None
          (Normal (JObj [("detail", JStr "Rate limit exceeded: 5 per 1 minute")])).

(** A 500 whose body is an HTML page, over HTTP/1.1 and over HTTP/2 (which
    has no reason phrase, so that [statusText] is empty). *)
Definition broken_500 : Response :=
  failure 500 "Internal Server Error" None (Abrupt SyntaxError_json).

Definition broken_500_h2 : Response :=
  failure 500 EmptyString None (Abrupt SyntaxError_json).

Definition good_200 : Response :=
  mkHttp 200 "OK" None
         (Normal (JObj [("status", JStr "success");
                        ("review", JObj [("comments", JArr []);
                                         ("stats", JObj [("total_comments", JNum "0");
                                                         ("by_agent", JObj []);
                                                         ("by_severity", JObj [])]);
                                         ("summary", JStr EmptyString)])])).

(** A 200 whose body is the JSON value null. *)
Definition null_200 : Response := mkHttp 200 "OK" None (Normal JNull).

(** The reading of a body at the type [ReviewResponse] that the sample
    environments use: member by member, as the interfaces name them. *)
Definition json_string (j : option Json) : string :=
  match j with
  | Some (JStr text) => text
  | _ => EmptyString
  end.

Definition json_nullable_string (j : option Json) : option string :=
  match j with
  | Some (JStr text) => Some text
  | _ => None
  end.

Definition json_integer (j : option Json) : option Z :=
  match j with
  | Some (JNum repr) =>
      match parseInt repr with
      | Int z => Some z
      | _ => None
      end
  | _ => None
  end.

Definition json_members (j : option Json) : list (string * Json) :=
  match j with
  | Some (JObj members) => members
  | _ => []
  end.

Definition json_items (j : option Json) : list Json :=
  match j with
  | Some (JArr items) => items
  | _ => []
  end.

Definition read_counts (members : list (string * Json)) : gmap string Z :=
  fold_left (fun counts kv =>
               match json_integer (Some (snd kv)) with
               | Some z => <[fst kv := z]> counts
               | None => counts
               end) members ∅.

Definition read_comment (j : Json) : ReviewComment :=
  let members := json_members (Some j) in
  mkComment (json_string (own_property "agent" members))
            (json_integer (own_property "line" members))
            (json_nullable_string (own_property "file" members))
            (json_string (own_property "message" members))
            (json_string (own_property "severity" members))
            (json_nullable_string (own_property "suggestion" members)).

Definition read_review (j : Json) : ReviewResponse :=
  let top := json_members (Some j) in
  let rv := json_members (own_property "review" top) in
  let st := json_members (own_property "stats" rv) in
  mkResponse
    (json_string (own_property "status" top))
    (mkResult
       (List.map read_comment (json_items (own_property "comments" rv)))
       (mkStats (default 0 (json_integer (own_property "total_comments" st)))
                (read_counts (json_members (own_property "by_agent" st)))
                (read_counts (json_members (own_property "by_severity" st))))
       (json_string (own_property "summary" rv))).

Definition answering (r : Response) : Env :=
  mkEnv (Some "http://localhost:8000") (fun _ => Normal r) read_review.

Definition unreachable (err : Thrown) : Env :=
  mkEnv (Some "http://localhost:8000") (fun _ => Abrupt err) read_review.

Definition comment_at (f : option string) (l : option Z) : ReviewComment :=
  mkComment "logic" l f "Possible division by zero." "high" None.

(* ===================================================================== *)
(** ** The rest of [Home]                                                 *)
(* ===================================================================== *)

(** Line 136: the change handler of the input stores what was typed. *)
Definition setPrUrl (v : string) : M unit :=
  modify (fun s => mkState v (loading s) (result s) (error s) (errorType s) (retryAfter s)).

Definition onChange (value : string) : M unit := setPrUrl value.



(** Lines 153-160: the class names the category adds to the panel. *)
Definition panel_class (t : option ErrorType) : string :=
  if errorType_is t rate_limit then "border-orange-600 bg-orange-50"
  else if errorType_is t validation then "border-yellow-600 bg-yellow-50"
  else if errorType_is t network then "border-blue-600 bg-blue-50"
  else "border-red-600 bg-red-50".

(** Lines 176-183: the class name the category adds to the message. *)
Definition message_class (t : option ErrorType) : string :=
  if errorType_is t rate_limit then "text-orange-800"
  else if errorType_is t validation then "text-yellow-800"
  else if errorType_is t network then "text-blue-800"
  else "text-red-800".

(** Lines 267-271: the class names of the agent badge. *)
Definition agent_class (agent : string) : string :=
  if String.eqb agent "logic" then "bg-blue-100 text-blue-800"
  else if String.eqb agent "security" then "bg-red-100 text-red-800"
  else if String.eqb agent "performance" then "bg-orange-100 text-orange-800"
  else if String.eqb agent "style" then "bg-purple-100 text-purple-800"
  else "bg-gray-100 text-gray-800".

(** Lines 275-277: the class names of the severity badge. *)
Definition severity_class (severity : string) : string :=
  if String.eqb severity "high" then "bg-red-200 text-red-900"
  else if String.eqb severity "medium" then "bg-orange-200 text-orange-900"
  else "bg-green-200 text-green-900".

(** Lines 152-305: the two conditional panels of the page. *)
Definition panels (env : Env) (s : State) : list Node :=
  errorPanel (SERVER_URL env) s ++ resultPanel (result s).

(** The children of the body of an error panel: what stands beside the
    icon. *)
Definition panel_body (panel : list Node) : list Node :=
  match panel with
  | [El _ [El _ [_; El _ children]]] => children
  | _ => []
  end.

(** The requests a log records, oldest first. *)
Definition requests (l : list Event) : list Request :=
  flat_map (fun ev => match ev with
                      | AwaitFetch req _ => [req]
                      | AwaitJson _ => []
                      end) l.

(** The colour a category is drawn in. *)
Definition spec_colour (t : option ErrorType) : string :=
  match t with
  | Some rate_limit => "orange"
  | Some validation => "yellow"
  | Some network => "blue"
  | Some server | Some general | None => "red"
  end.

(** A decimal digit. *)
Definition is_decimal_digit (c : ascii) : bool :=
  let n := Z.of_nat (nat_of_ascii c) in (48 <=? n) && (n <=? 57).

(** The statuses the switch names. *)
Definition named_statuses : list Z := [429; 400; 413; 500; 502; 503; 504].

(** What may follow a numeral: nothing, or text that starts with no digit. *)
Definition no_digit_ahead (rest : string) : Prop :=
  match rest with
  | EmptyString => True
  | String c _ => is_decimal_digit c = false
  end.

(* ===================================================================== *)
(** ** The handler, arm by arm                                            *)
(* ===================================================================== *)

Ltac unfold_handler :=
  unfold run, handleSubmit, handleSubmit_reset, handleSubmit_try,
    read_errorData, await_fetch, await_json, try_finally, try_catch, bind,
    read, record, lift, ret, setLoading, setError, setErrorType,
    setRetryAfter, setResult, modify;
  cbn [ui log app].

Lemma spec_category_cases st :
  spec_category st =
  if st =? 429 then rate_limit
  else if (st =? 400) || (st =? 413) then validation
  else if (st =? 500) || (st =? 502) || (st =? 503) || (st =? 504) then server
  else general.
Proof.
  destruct st as [|p|p]; try reflexivity.
  do 10 (try (destruct p as [p|p|]; try reflexivity)).
Qed.

Lemma throw_detail_or_run d fb w :
  throw_detail_or d fb w = (w, Abrupt (ThrownError (detail_error d fb))).
Proof.
  destruct d; try reflexivity.
  unfold throw_detail_or, detail_error, error_of_value, bind, lift, throw.
  cbn [get_property].
  destruct (new_Error (or_string (own_property "detail" members) fb));
    reflexivity.
Qed.

(** The only exception of [ToString] is the TypeError of an object that
    cannot become a string. *)
Lemma all_normal_throws {A} (cs : list (Completion ErrorObject A)) e0 e :
  (forall c e', In c cs -> c = Abrupt e' -> e' = e0) ->
  all_normal cs = Abrupt e -> e = e0.
Proof.
  induction cs as [|[a|e1] cs IH]; intros Hall; cbn [all_normal].
  - discriminate.
  - destruct (all_normal cs) eqn:Hrest; [discriminate|].
    intros [= <-]. apply IH; [|reflexivity].
    intros c e' Hin. apply Hall. now right.
  - intros [= <-]. apply (Hall (Abrupt e1)); [now left | reflexivity].
Qed.

Lemma ToString_throws : forall v e,
  ToString v = Abrupt e -> e = mkError ClsTypeError to_primitive_message.
Proof.
  fix IH 1. intros [| [] | | |items|members] e; cbn [ToString];
    try discriminate.
  - destruct (all_normal _) eqn:Hall; [discriminate|]. intros [= <-].
    refine (all_normal_throws _ _ _ _ Hall). intros c e' Hin Hc. clear Hall.
    induction items as [|x items IHitems]; [destruct Hin|].
    cbn [List.map In] in Hin. destruct Hin as [<-|Hin]; [|exact (IHitems Hin)].
    assert (Hx : x = JNull
                 \/ match x with JNull => Normal EmptyString | _ => ToString x end
                    = ToString x) by (destruct x; auto).
    destruct Hx as [->|Hx]; [discriminate Hc|].
    rewrite Hx in Hc. exact (IH x _ Hc).
  - destruct (own_property "toString" members); [|discriminate].
    now intros [= <-].
Qed.

Lemma error_of_value_not_network v :
  is_fetch_TypeError (ThrownError (error_of_value v)) = false.
Proof.
  unfold error_of_value, new_Error.
  destruct (ToString v) as [text|e] eqn:Hv; [reflexivity|].
  now rewrite (ToString_throws v e Hv).
Qed.

Lemma detail_error_not_network d fb :
  is_fetch_TypeError (ThrownError (detail_error d fb)) = false.
Proof.
  destruct d; try reflexivity. apply error_of_value_not_network.
Qed.

Lemma handleSubmit_catch_run err w :
  handleSubmit_catch err w =
  (mkWorld
     (if is_fetch_TypeError err
      then mkState (prUrl (ui w)) (loading (ui w)) (result (ui w))
                   (Some connectivity_message) (Some network) (retryAfter (ui w))
      else mkState (prUrl (ui w)) (loading (ui w)) (result (ui w))
                   (Some (caught_message err)) (errorType (ui w)) (retryAfter (ui w)))
     (log w),
   Normal tt).
Proof.
  destruct err as [e|]; [|reflexivity].
  unfold handleSubmit_catch, is_fetch_TypeError.
  destruct (instanceof_TypeError (ThrownError e) && includes "fetch" (message e));
    reflexivity.
Qed.

Lemma switch_status_run r d w :
  switch_status r d w =
  (mkWorld
     (mkState (prUrl (ui w)) (loading (ui w)) (result (ui w)) (error (ui w))
              (Some (spec_category (status r)))
              (if status r =? 429 then
                 match Retry_After r with
                 | Some h => if String_truthy h then Some (parseInt h) else retryAfter (ui w)
                 | None => retryAfter (ui w)
                 end
               else retryAfter (ui w)))
     (log w),
   Abrupt (ThrownError (detail_error d (fallback_message r)))).
Proof.
  rewrite spec_category_cases. unfold switch_status, fallback_message.
  destruct w as [[] l].
  destruct (status r =? 429).
  { destruct (Retry_After r) as [h|]; [destruct (String_truthy h)|];
      unfold bind, setErrorType, setRetryAfter, modify, ret; cbn [ui log];
      rewrite throw_detail_or_run; reflexivity. }
  destruct (status r =? 400);
    [unfold bind, setErrorType, modify; cbn [ui log];
     rewrite throw_detail_or_run; reflexivity|].
  destruct (status r =? 413);
    [unfold bind, setErrorType, modify; cbn [ui log];
     rewrite throw_detail_or_run; reflexivity|].
  cbn [orb].
  destruct ((status r =? 500) || (status r =? 502) || (status r =? 503)
            || (status r =? 504));
    unfold bind, setErrorType, modify; cbn [ui log];
    rewrite throw_detail_or_run; reflexivity.
Qed.

Lemma run_rejected env s err :
  fetch env (review_request env (prUrl s)) = Abrupt err ->
  run env s =
  (mkWorld (caught_state s err)
           [AwaitFetch (review_request env (prUrl s)) (reset_state s)],
   Normal tt).
Proof.
  intros Hf. unfold_handler. cbn [prUrl]. rewrite Hf.
  rewrite handleSubmit_catch_run. unfold caught_state.
  destruct (is_fetch_TypeError err); reflexivity.
Qed.

Lemma run_failed env s r :
  fetch env (review_request env (prUrl s)) = Normal r ->
  ok r = false ->
  run env s =
  (mkWorld
     (mkState (prUrl s) false None
        (Some (message (detail_error (errorData_of r) (fallback_message r))))
        (Some (spec_category (status r))) (retryAfter_of r))
     [AwaitFetch (review_request env (prUrl s)) (reset_state s);
      AwaitJson (reset_state s)],
   Normal tt).
Proof.
  intros Hf Hok. unfold_handler. cbn [prUrl]. rewrite Hf, Hok. cbn [negb].
  unfold errorData_of, retryAfter_of.
  destruct (json r) as [j|e]; rewrite switch_status_run;
    rewrite handleSubmit_catch_run, detail_error_not_network; cbn [ui log];
    cbn [prUrl loading result error errorType retryAfter];
    destruct (status r =? 429); try reflexivity;
    destruct (Retry_After r) as [h|]; try reflexivity;
    destruct (String_truthy h); reflexivity.
Qed.

Lemma run_succeeded env s r d :
  fetch env (review_request env (prUrl s)) = Normal r ->
  ok r = true ->
  json r = Normal d ->
  run env s =
  (mkWorld (mkState (prUrl s) false (stored_result env d) None None None)
     [AwaitFetch (review_request env (prUrl s)) (reset_state s);
      AwaitJson (reset_state s)],
   Normal tt).
Proof.
  intros Hf Hok Hd. unfold_handler. cbn [prUrl]. rewrite Hf, Hok, Hd.
  reflexivity.
Qed.

Lemma run_unreadable env s r err :
  fetch env (review_request env (prUrl s)) = Normal r ->
  ok r = true ->
  json r = Abrupt err ->
  run env s =
  (mkWorld (caught_state s err)
     [AwaitFetch (review_request env (prUrl s)) (reset_state s);
      AwaitJson (reset_state s)],
   Normal tt).
Proof.
  intros Hf Hok Hd. unfold_handler. cbn [prUrl]. rewrite Hf, Hok, Hd.
  cbn [negb]. rewrite handleSubmit_catch_run. unfold caught_state.
  destruct (is_fetch_TypeError err); reflexivity.
Qed.

(** Every cycle settles normally, in one of four ways. *)
Lemma run_cases env s :
  let req := review_request env (prUrl s) in
  (exists err,
      fetch env req = Abrupt err /\
      run env s = (mkWorld (caught_state s err) [AwaitFetch req (reset_state s)],
                   Normal tt))
  \/ (exists r err,
      fetch env req = Normal r /\ ok r = true /\ json r = Abrupt err /\
      run env s = (mkWorld (caught_state s err)
                     [AwaitFetch req (reset_state s); AwaitJson (reset_state s)],
                   Normal tt))
  \/ (exists r d,
      fetch env req = Normal r /\ ok r = true /\ json r = Normal d /\
      run env s = (mkWorld (mkState (prUrl s) false (stored_result env d)
                                    None None None)
                     [AwaitFetch req (reset_state s); AwaitJson (reset_state s)],
                   Normal tt))
  \/ (exists r,
      fetch env req = Normal r /\ ok r = false /\
      run env s =
        (mkWorld
           (mkState (prUrl s) false None
              (Some (message (detail_error (errorData_of r) (fallback_message r))))
              (Some (spec_category (status r))) (retryAfter_of r))
           [AwaitFetch req (reset_state s); AwaitJson (reset_state s)],
         Normal tt)).
Proof.
  intros req. destruct (fetch env req) as [r|err] eqn:Hf.
  - destruct (ok r) eqn:Hok.
    + destruct (json r) as [d|err] eqn:Hd.
      * right; right; left. exists r, d. eauto using run_succeeded.
      * right; left. exists r, err. eauto using run_unreadable.
    + right; right; right. exists r. eauto using run_failed.
  - left. exists err. eauto using run_rejected.
Qed.

Lemma caught_state_outcome s err :
  loading (caught_state s err) = false /\
  result (caught_state s err) = None /\
  is_Some (error (caught_state s err)).
Proof. unfold caught_state. destruct (is_fetch_TypeError err); cbn; eauto. Qed.

Lemma ok_false_iff r : ok r = false <-> ~ (200 <= status r <= 299).
Proof. unfold ok. rewrite andb_false_iff, !Z.leb_gt. lia. Qed.

(* ===================================================================== *)
(** ** Failure classification                                             *)
(* ===================================================================== *)

(** C1.  Whenever [fetch] resolves to a response whose status is outside
    200-299, the [errorType] cell at the end of the cycle is the category
    that the table of section 4.2 gives for the status: 429 is rate_limit,
    400 and 413 are validation, 500, 502, 503 and 504 are server, any other
    is general.  The body, its [detail], the status text and the headers
    have no say in it: two failed responses of one status end in the same
    category. *)
Theorem failure_category_by_status env s r :
  fetch env (review_request env (prUrl s)) = Normal r ->
  ~ (200 <= status r <= 299) ->
  errorType (after env s) = Some (spec_category (status r))
  /\ (forall env' s' r',
        fetch env' (review_request env' (prUrl s')) = Normal r' ->
        status r' = status r ->
        errorType (after env' s') = errorType (after env s)).
Proof.
  intros Hf Hst. apply ok_false_iff in Hst.
  assert (Hcat : errorType (after env s) = Some (spec_category (status r))).
  { unfold after. rewrite (run_failed env s r Hf Hst). reflexivity. }
  split; [exact Hcat|].
  intros env' s' r' Hf' Heq. rewrite Hcat, <- Heq.
  assert (Hok' : ok r' = false) by (unfold ok in *; now rewrite Heq).
  unfold after. rewrite (run_failed env' s' r' Hf' Hok'). reflexivity.
Qed.

Lemma failure_category_by_status_witness :
  fetch (answering too_many_30) (review_request (answering too_many_30) (prUrl idle))
    = Normal too_many_30
  /\ ~ (200 <= status too_many_30 <= 299)
  /\ errorType (after (answering too_many_30) idle) = Some rate_limit.
Proof.
  assert (H : ~ (200 <= status too_many_30 <= 299)) by (cbn; lia).
  split; [reflexivity | split; [exact H |]].
  exact (proj1 (failure_category_by_status (answering too_many_30) idle
                  too_many_30 eq_refl H)).
Defined.

(** The rows of the table. *)
Example spec_category_rows :
  List.map spec_category [429; 400; 413; 500; 502; 503; 504; 404; 422; 501; 304]
  = [rate_limit; validation; validation; server; server; server; server;
     general; general; general; general].
Proof. reflexivity. Qed.

(** A body that is the JSON value [null] makes the read of [detail] throw;
    the category is the one of the status all the same. *)
Example null_body_keeps_category :
  after (answering (failure 503 "Service Unavailable" None (Normal JNull))) idle
  = mkState (prUrl idle) false None
            (Some "Cannot read properties of null (reading 'detail')")
            (Some server) None.
Proof. reflexivity. Qed.

(** C2, as stated, fails: WebKit rejects [fetch] with a TypeError whose
    message is "Load failed"; the cycle then ends without a category and
    shows that message, not the connectivity message. *)
Lemma network_failure_unclassified :
  fetch (unreachable TypeError_load_failed)
        (review_request (unreachable TypeError_load_failed) (prUrl idle))
    = Abrupt TypeError_load_failed
  /\ errorType (after (unreachable TypeError_load_failed) idle) = None
  /\ errorType (after (unreachable TypeError_load_failed) idle) <> Some network
  /\ error (after (unreachable TypeError_load_failed) idle) = Some "Load failed".
Proof. repeat split; try reflexivity. discriminate. Qed.

(** C2, amended.  When [fetch] rejects, no response having been received,
    the cycle ends in the cells [caught_state] describes: if the rejection
    is a TypeError whose message contains "fetch", the category is network,
    the message is the fixed connectivity message and the panel shows it
    with the tip naming the configured server; otherwise no category is
    set and the message shown is the one of the exception. *)
Theorem fetch_rejection_classified env s err :
  fetch env (review_request env (prUrl s)) = Abrupt err ->
  snd (run env s) = Normal tt
  /\ (is_fetch_TypeError err = true ->
      errorType (after env s) = Some network
      /\ error (after env s) = Some connectivity_message
      /\ result (after env s) = None
      /\ errorPanel (SERVER_URL env) (after env s) = network_panel (SERVER_URL env))
  /\ (is_fetch_TypeError err = false ->
      errorType (after env s) = None
      /\ error (after env s) = Some (caught_message err)
      /\ result (after env s) = None).
Proof.
  intros Hf. unfold after. rewrite (run_rejected env s err Hf).
  cbn [fst snd ui]. unfold caught_state.
  split; [reflexivity|].
  split; intros ->; repeat split.
Qed.

Lemma fetch_rejection_classified_witness :
  fetch (unreachable TypeError_failed_to_fetch)
        (review_request (unreachable TypeError_failed_to_fetch) (prUrl idle))
    = Abrupt TypeError_failed_to_fetch
  /\ errorType (after (unreachable TypeError_failed_to_fetch) idle) = Some network
  /\ error (after (unreachable TypeError_failed_to_fetch) idle)
     = Some connectivity_message.
Proof.
  split; [reflexivity|].
  destruct (fetch_rejection_classified (unreachable TypeError_failed_to_fetch)
              idle TypeError_failed_to_fetch eq_refl) as (_ & Hnet & _).
  destruct (Hnet eq_refl) as (Ht & Hm & _).
  exact (conj Ht Hm).
Defined.

(* ===================================================================== *)
(** ** A failed response whose body is not JSON                           *)
(* ===================================================================== *)

(** C3, as stated, fails: over HTTP/2 the status text is empty, and the
    message of a 500 with an unreadable body is the fixed text of the
    server arm, which owes nothing to the status text. *)
Lemma malformed_body_empty_status_text :
  json broken_500_h2 = Abrupt SyntaxError_json
  /\ statusText broken_500_h2 = EmptyString
  /\ error (after (answering broken_500_h2) idle)
     = Some "Server error. Please try again in a few moments."
  /\ error (after (answering broken_500_h2) idle)
     <> Some (statusText broken_500_h2).
Proof. repeat split; try reflexivity. discriminate. Qed.

(** C3, amended.  When the body of a failed response cannot be read as
    JSON, the cycle still settles normally (nothing escapes the handler),
    the category is the one of the status, and the message is the status
    text when that is not empty, and otherwise the fallback text of the
    arm of the switch the status selects. *)
Theorem malformed_body_fallback env s r e :
  fetch env (review_request env (prUrl s)) = Normal r ->
  ~ (200 <= status r <= 299) ->
  json r = Abrupt e ->
  snd (run env s) = Normal tt
  /\ errorType (after env s) = Some (spec_category (status r))
  /\ error (after env s)
     = Some (if String_truthy (statusText r) then statusText r
             else fallback_message r)
  /\ result (after env s) = None.
Proof.
  intros Hf Hst Hj. apply ok_false_iff in Hst.
  unfold after. rewrite (run_failed env s r Hf Hst). cbn [fst snd ui].
  unfold errorData_of. rewrite Hj.
  repeat split. cbn [error detail_error own_property]. 
  destruct (statusText r); reflexivity.
Qed.

Lemma malformed_body_fallback_witness :
  fetch (answering broken_500) (review_request (answering broken_500) (prUrl idle))
    = Normal broken_500
  /\ ~ (200 <= status broken_500 <= 299)
  /\ json broken_500 = Abrupt SyntaxError_json
  /\ errorType (after (answering broken_500) idle) = Some server
  /\ error (after (answering broken_500) idle) = Some "Internal Server Error".
Proof.
  assert (H : ~ (200 <= status broken_500 <= 299)) by (cbn; lia).
  split; [reflexivity | split; [exact H | split; [reflexivity |]]].
  destruct (malformed_body_fallback (answering broken_500) idle broken_500
              SyntaxError_json eq_refl H eq_refl) as (_ & Ht & Hm & _).
  exact (conj Ht Hm).
Defined.

(* ===================================================================== *)
(** ** The Retry-After hint                                               *)
(* ===================================================================== *)

Lemma parseInt_empty : parseInt EmptyString = NaN.
Proof. reflexivity. Qed.




(** Without the header the generic tip stands alone, and the page reads as
    the source writes it. *)
Example retry_after_absent :
  errorPanel (SERVER_URL (answering too_many_plain))
             (after (answering too_many_plain) idle)
  = rate_limit_panel "Rate limit exceeded: 5 per 1 minute" [generic_tip].
Proof. reflexivity. Qed.

Example retry_after_30_text :
  List.map textContent (rate_limit_hints (after (answering too_many_30) idle))
  = ["⏱️ Please wait approximately 30 seconds before retrying."].
Proof. reflexivity. Qed.

(** A header that parses to zero leaves the number itself on the page next
    to the generic tip. *)
Example retry_after_zero :
  rate_limit_hints
    (after (answering (failure 429 "Too Many Requests" (Some "0") (Normal (JObj [])))) idle)
  = [Num (Int 0); generic_tip].
Proof. reflexivity. Qed.

(* ===================================================================== *)
(** ** The cells over one cycle                                           *)
(* ===================================================================== *)

Lemma stored_result_cases env d :
  (d = JNull /\ stored_result env d = None)
  \/ (d <> JNull /\ stored_result env d = Some (as_ReviewResponse env d)).
Proof. destruct d; (left; split; reflexivity) || (right; split; [discriminate | reflexivity]). Qed.

(** C5, as stated, fails: a response with status 200 whose body is the
    JSON value null is stored as it is; the cycle settles with [result]
    null and [error] null. *)
Lemma null_body_neither_outcome :
  fetch (answering null_200) (review_request (answering null_200) (prUrl idle))
    = Normal null_200
  /\ ok null_200 = true
  /\ json null_200 = Normal JNull
  /\ snd (run (answering null_200) idle) = Normal tt
  /\ result (after (answering null_200) idle) = None
  /\ error (after (answering null_200) idle) = None.
Proof. repeat split. Qed.

(** C5, amended.  Every cycle settles, and when it has, exactly one of
    [result] and [error] is not null, unless [fetch] resolved to a
    response with a status in 200-299 whose body is the JSON value null:
    then both are null.  [result] is set exactly when such a response has
    a body that is JSON other than null, to that body read as a review,
    and [error] is then null.  On every other path (rejected [fetch],
    failed status, unreadable body) [error] is set and [result] is
    null. *)
Theorem exactly_one_outcome env s :
  let req := review_request env (prUrl s) in
  snd (run env s) = Normal tt
  /\ (null_body_success env s ->
      result (after env s) = None /\ error (after env s) = None)
  /\ (~ null_body_success env s ->
      (is_Some (result (after env s)) /\ error (after env s) = None)
      \/ (result (after env s) = None /\ is_Some (error (after env s))))
  /\ (forall d,
        result (after env s) = Some d <->
        exists r j, fetch env req = Normal r /\ ok r = true
                    /\ json r = Normal j /\ j <> JNull
                    /\ d = as_ReviewResponse env j)
  /\ (forall r j, fetch env req = Normal r -> ok r = true ->
        json r = Normal j -> j <> JNull ->
        result (after env s) = Some (as_ReviewResponse env j)
        /\ error (after env s) = None).
Proof.
  intros req. unfold after, null_body_success.
  destruct (run_cases env s)
    as [(err & Hf & ->) | [(r & err & Hf & Hok & Hd & ->)
      | [(r & d & Hf & Hok & Hd & ->) | (r & Hf & Hok & ->)]]];
    fold req in Hf |- *; cbn [fst snd ui];
    try destruct (caught_state_outcome s err) as (_ & Hres & Herr);
    (split; [reflexivity|]); cbn [result error].
  - split; [intros (r & Hr & _); congruence|].
    split; [right; auto|]. rewrite Hres. split.
    + intros d'. split; [discriminate|]. intros (r & j & Hr & _). congruence.
    + intros r j Hr. congruence.
  - split; [intros (r' & Hr & _ & Hj); congruence|].
    split; [right; auto|]. rewrite Hres. split.
    + intros d'. split; [discriminate|].
      intros (r' & j & Hr & _ & Hj & _). congruence.
    + intros r' j Hr _ Hj. congruence.
  - destruct (stored_result_cases env d) as [[-> ->]|[Hd' ->]].
    + split; [auto|]. split; [intros Hn; exfalso; apply Hn; eauto|]. split.
      * intros d'. split; [discriminate|].
        intros (r' & j & Hr & _ & Hj & Hne & _). congruence.
      * intros r' j Hr _ Hj Hne. congruence.
    + split; [intros (r' & Hr & _ & Hj); congruence|].
      split; [left; eauto|]. split.
      * intros d'. split.
        -- intros [= <-]. exists r, d. auto.
        -- intros (r' & j & Hr & _ & Hj & _ & ->). congruence.
      * intros r' j Hr _ Hj _. split; [congruence | reflexivity].
  - split; [intros (r' & Hr & Hok' & _); congruence|].
    split; [right; eauto|]. split.
    + intros d'. split; [discriminate|]. intros (r' & j & Hr & Hok' & _).
      congruence.
    + intros r' j Hr Hok'. congruence.
Qed.

Lemma exactly_one_outcome_witness :
  result (after (answering good_200) after_a_failure) = Some empty_review
  /\ error (after (answering good_200) after_a_failure) = None.
Proof.
  destruct (exactly_one_outcome (answering good_200) after_a_failure)
    as (_ & _ & _ & _ & Hgood).
  refine (Hgood good_200 _ eq_refl eq_refl eq_refl _). discriminate.
Defined.

(** The sample reading takes the sample body for the empty review. *)
Example read_review_good_200 :
  stored_result (answering good_200)
    (JObj [("status", JStr "success");
           ("review", JObj [("comments", JArr []);
                            ("stats", JObj [("total_comments", JNum "0");
                                            ("by_agent", JObj []);
                                            ("by_severity", JObj [])]);
                            ("summary", JStr EmptyString)])])
  = Some empty_review.
Proof. reflexivity. Qed.

(** C6.  The first thing a cycle does that leaves the handler is the
    request; at that moment the page shows no result, no error, no
    category and no retry delay, whatever the cells held before, and it
    shows none either at any later moment the handler is suspended at. *)
Theorem reset_before_dispatch env s :
  exists shown later,
    log (fst (run env s))
      = AwaitFetch (review_request env (prUrl s)) shown :: later
    /\ clean shown
    /\ Forall (fun ev => clean (shown_at ev)) later.
Proof.
  exists (reset_state s).
  destruct (run_cases env s)
    as [(err & Hf & ->) | [(r & err & Hf & Hok & Hd & ->)
      | [(r & d & Hf & Hok & Hd & ->) | (r & Hf & Hok & ->)]]];
    cbn [fst log]; eexists; (split; [reflexivity|]);
    repeat constructor.
Qed.

Lemma reset_before_dispatch_witness :
  exists shown later,
    log (fst (run (answering good_200) after_a_failure))
      = AwaitFetch (review_request (answering good_200) (prUrl after_a_failure))
                   shown :: later
    /\ clean shown
    /\ Forall (fun ev => clean (shown_at ev)) later.
Proof. exact (reset_before_dispatch (answering good_200) after_a_failure). Defined.

(** The reset itself: lines 43-47 on any cells. *)
Lemma handleSubmit_reset_run w :
  handleSubmit_reset w = (mkWorld (reset_state (ui w)) (log w), Normal tt).
Proof. destruct w as [[] l]. reflexivity. Qed.

(** C7.  Every cycle settles normally with [loading] false, and [loading]
    is true at every moment the handler is suspended at, the sending of
    the request first: whether the review arrives, the status is a failed
    one, [fetch] rejects, or anything else is thrown on the way. *)
Theorem loading_flag_released env s :
  snd (run env s) = Normal tt
  /\ loading (after env s) = false
  /\ (exists shown later,
        log (fst (run env s))
          = AwaitFetch (review_request env (prUrl s)) shown :: later
        /\ loading shown = true)
  /\ Forall (fun ev => loading (shown_at ev) = true) (log (fst (run env s))).
Proof.
  unfold after.
  destruct (run_cases env s)
    as [(err & Hf & ->) | [(r & err & Hf & Hok & Hd & ->)
      | [(r & d & Hf & Hok & Hd & ->) | (r & Hf & Hok & ->)]]];
    cbn [fst snd ui log];
    try destruct (caught_state_outcome s err) as (Hl & _);
    (split; [reflexivity|]); (split; [assumption || reflexivity|]);
    (split; [eexists _, _; split; reflexivity | repeat constructor]).
Qed.

Lemma loading_flag_released_witness :
  loading (after (unreachable ThrownOther) idle) = false.
Proof.
  destruct (loading_flag_released (unreachable ThrownOther) idle) as (_ & H & _).
  exact H.
Defined.

(* ===================================================================== *)
(** ** The statistics strip                                               *)
(* ===================================================================== *)

Lemma tile_inj t1 c1 t2 c2 : tile t1 c1 = tile t2 c2 -> t1 = t2 /\ c1 = c2.
Proof.
  unfold tile. intros [= Ht Hc]. split; [exact Ht|].
  destruct c1, c2; cbn in Hc; congruence.
Qed.

Lemma positive_spec count : positive count = true <-> exists n, count = Some n /\ 0 < n.
Proof.
  destruct count as [n|]; cbn.
  - rewrite Z.ltb_lt. split; [eauto|]. intros (m & [= ->] & Hm). exact Hm.
  - split; [discriminate|]. intros (m & Hm & _). discriminate.
Qed.

(** C8.  The strip starts with the Total Issues tile, whatever the counts.
    The tile of a severity (High, Medium, Low) is in the strip exactly when
    the map has a count for its key and that count is above zero, and the
    tile then shows that count; a key the map lacks counts as zero (no
    tile, no failure: the strip is a total function).  With an empty map
    the strip is the Total Issues tile alone. *)
Theorem stats_strip_tiles st :
  (exists rest,
      statsStrip st = tile "Total Issues" (Some (total_comments st)) :: rest
      /\ (length rest <= 3)%nat)
  /\ (forall title key, In (title, key) severity_tiles ->
      forall count,
        In (tile title count) (statsStrip st) <->
        count = by_severity st !! key /\ exists n, count = Some n /\ 0 < n)
  /\ (by_severity st = ∅ ->
      statsStrip st = [tile "Total Issues" (Some (total_comments st))]).
Proof.
  split; [|split].
  - unfold statsStrip. eexists. split; [reflexivity|].
    rewrite !length_app.
    destruct (positive (by_severity st !! "high")),
             (positive (by_severity st !! "medium")),
             (positive (by_severity st !! "low")); cbn; lia.
  - intros title key Hin count. unfold statsStrip.
    rewrite !in_app_iff.
    assert (Hb : forall t k, In (tile title count)
                   (bool_and (positive (by_severity st !! k)) [tile t (by_severity st !! k)])
                 <-> (title = t /\ count = by_severity st !! k
                      /\ exists n, count = Some n /\ 0 < n)).
    { intros t k. destruct (positive (by_severity st !! k)) eqn:Hp; cbn.
      - apply positive_spec in Hp. split.
        + intros [Heq|[]]. apply tile_inj in Heq as [Ht Hc].
          rewrite <- Ht, <- Hc. auto.
        + intros (-> & -> & _). auto.
      - split; [intros []|]. intros (_ & -> & Hn).
        apply positive_spec in Hn. congruence. }
    rewrite !Hb. cbn [In].
    destruct Hin as [[= <- <-]|[[= <- <-]|[[= <- <-]|[]]]]; split.
    all: try (intros [[Heq|[]]|[H|[H|H]]];
              [apply tile_inj in Heq as [[=] _] | ..];
              destruct H as (Ht & H); first [discriminate Ht | exact H]).
    all: intros H; right;
      first [ left; split; [reflexivity | exact H]
            | right; left; split; [reflexivity | exact H]
            | right; right; split; [reflexivity | exact H] ].
  - intros Hempty. unfold statsStrip. rewrite Hempty, !lookup_empty. reflexivity.
Qed.

Lemma stats_strip_tiles_witness :
  statsStrip (mkStats 7 ∅ ∅) = [tile "Total Issues" (Some 7)].
Proof.
  destruct (stats_strip_tiles (mkStats 7 ∅ ∅)) as (_ & _ & Hempty).
  exact (Hempty eq_refl).
Defined.

(** A zero count is left out like an absent one. *)
Example stats_strip_zero_count :
  statsStrip (mkStats 2 ∅ (<["high" := 2]> (<["low" := 0]> ∅)))
  = [tile "Total Issues" (Some 2); tile "High Severity" (Some 2)].
Proof. reflexivity. Qed.

(* ===================================================================== *)
(** ** The location line of a comment                                     *)
(* ===================================================================== *)

Lemma append_empty_r (s : string) : s +:+ EmptyString = s.
Proof.
  induction s as [|a s IH]; [reflexivity|].
  change (String a (s +:+ EmptyString) = String a s). now rewrite IH.
Qed.

(** C9, as stated, fails: a comment whose [file] is the empty string has a
    file that is not null, and no line; the claim has it render the file
    alone, but no location line is rendered at all. *)
Lemma location_empty_file :
  file (comment_at (Some EmptyString) None) = Some EmptyString
  /\ line (comment_at (Some EmptyString) None) = None
  /\ locationLine (comment_at (Some EmptyString) None) = []
  /\ location_text (comment_at (Some EmptyString) None)
     <> spec_location (comment_at (Some EmptyString) None).
Proof. repeat split. discriminate. Qed.

(** C9, amended.  A comment whose [file] is null or empty has no location
    line.  A comment whose [file] is a non-empty string has one: it reads
    as the file alone when [line] is null, and as the file followed by
    " : Line N" when [line] is a number N other than zero.  (A [line] of
    zero is left aside.) *)
Theorem location_line_rendering c :
  ((file c = None \/ file c = Some EmptyString) -> locationLine c = [])
  /\ (forall f, file c = Some f -> f <> EmptyString -> line c = None ->
      locationLine c = [El "p" [El "Folder" []; Text f]]
      /\ location_text c = Some f)
  /\ (forall f n, file c = Some f -> f <> EmptyString -> line c = Some n ->
      n <> 0 -> isSafeInteger n ->
      locationLine c
        = [El "p" [El "Folder" []; Text f; Text (" : Line " +:+ pretty n)]]
      /\ location_text c = Some (f +:+ " : Line " +:+ pretty n)).
Proof.
  unfold location_text, locationLine. split; [|split].
  - intros [-> | ->]; reflexivity.
  - intros f -> Hf ->. destruct f as [|a f]; [congruence|].
    cbn. rewrite append_empty_r. split; reflexivity.
  - intros f n -> Hf -> Hn _. destruct f as [|a f]; [congruence|].
    cbn [string_and String_truthy fmap option_fmap option_map number_and
         Number_truthy].
    destruct (Z.eqb_spec n 0) as [->|_]; [congruence|].
    assert (Ht : forall s, String_truthy (" : Line " +:+ s) = true)
      by reflexivity.
    unfold jsx_string. rewrite Ht.
    cbn. rewrite append_empty_r. split; reflexivity.
Qed.

Lemma location_line_rendering_witness :
  location_text (comment_at (Some "a.py") (Some 12)) = Some "a.py : Line 12"
  /\ location_text (comment_at (Some "a.py") None) = Some "a.py"
  /\ locationLine (comment_at None None) = [].
Proof.
  destruct (location_line_rendering (comment_at (Some "a.py") (Some 12)))
    as (_ & _ & Hboth).
  destruct (location_line_rendering (comment_at (Some "a.py") None))
    as (_ & Hfile & _).
  destruct (location_line_rendering (comment_at None None)) as (Hnone & _).
  split; [|split].
  - apply (Hboth "a.py" 12 eq_refl);
      [discriminate | reflexivity | lia | unfold isSafeInteger; lia].
  - apply (Hfile "a.py" eq_refl); [discriminate | reflexivity].
  - apply Hnone. left. reflexivity.
Defined.

(** A [line] of zero, with a file: the zero itself follows the file name,
    without the " : Line " text. *)
Example location_line_zero :
  locationLine (comment_at (Some "a.py") (Some 0))
  = [El "p" [El "Folder" []; Text "a.py"; Num (Int 0)]]
  /\ location_text (comment_at (Some "a.py") (Some 0)) = Some "a.py0".
Proof. split; reflexivity. Qed.

(** C10.  A comment whose [file] is null has no location line, whatever
    its [line] is: the line is looked at only under a truthy file. *)
Theorem no_location_without_file c :
  file c = None -> locationLine c = [].
Proof. unfold locationLine. intros ->. reflexivity. Qed.

Lemma no_location_without_file_witness :
  file (comment_at None (Some 12)) = None
  /\ locationLine (comment_at None (Some 12)) = [].
Proof.
  split; [reflexivity|].
  exact (no_location_without_file (comment_at None (Some 12)) eq_refl).
Defined.

(* ===================================================================== *)
(** ** The request and the shape of a cycle                               *)
(* ===================================================================== *)

(** X1.  A cycle sends one request and no more: a POST to the configured
    base URL followed by /review/pr, with a JSON content type and the
    current input as [pr_url].  The body of the response is awaited once,
    and only when [fetch] resolved. *)
Theorem one_request_per_cycle env s :
  let req := mkRequest (default "undefined" (SERVER_URL env) +:+ "/review/pr")
                       "POST" [("Content-Type", "application/json")]
                       (JObj [("pr_url", JStr (prUrl s))]) in
  requests (log (fst (run env s))) = [req]
  /\ log (fst (run env s))
     = AwaitFetch req (reset_state s)
       :: match fetch env req with
          | Normal _ => [AwaitJson (reset_state s)]
          | Abrupt _ => []
          end.
Proof.
  intros req.
  destruct (run_cases env s)
    as [(err & Hf & ->) | [(r & err & Hf & Hok & Hd & ->)
      | [(r & d & Hf & Hok & Hd & ->) | (r & Hf & Hok & ->)]]];
    change (review_request env (prUrl s)) with req in *;
    rewrite Hf; split; reflexivity.
Qed.

(** Typing a URL and then submitting sends that URL. *)
Lemma onChange_run value w :
  onChange value w
  = (mkWorld (mkState value (loading (ui w)) (result (ui w)) (error (ui w))
                      (errorType (ui w)) (retryAfter (ui w))) (log w),
     Normal tt).
Proof. reflexivity. Qed.

(** X2.  The input is never touched by a cycle, and nothing else of the
    earlier cells reaches the outcome: two cycles that start with the same
    input against the same network end in the same cells.  Hence
    submitting again (the Try Again button) with an unchanged outcome of
    the network leaves the page as it is. *)
Theorem cycle_depends_on_input_only env s :
  prUrl (after env s) = prUrl s
  /\ (forall s', prUrl s' = prUrl s -> after env s' = after env s)
  /\ after env (after env s) = after env s.
Proof.
  assert (Hown : forall s0, prUrl (after env s0) = prUrl s0).
  { intros s0. unfold after.
    destruct (run_cases env s0)
      as [(err & Hf & ->) | [(r & err & Hf & Hok & Hd & ->)
        | [(r & d & Hf & Hok & Hd & ->) | (r & Hf & Hok & ->)]]];
      cbn [fst ui]; try reflexivity;
      unfold caught_state; destruct (is_fetch_TypeError err); reflexivity. }
  assert (Hsame : forall s1 s2, prUrl s1 = prUrl s2 -> after env s1 = after env s2).
  { intros s1 s2 Heq. unfold after.
    destruct (run_cases env s2)
      as [(err & Hf & ->) | [(r & err & Hf & Hok & Hd & ->)
        | [(r & d & Hf & Hok & Hd & ->) | (r & Hf & Hok & ->)]]];
      rewrite <- Heq in Hf.
    - rewrite (run_rejected env s1 err Hf). cbn [fst ui].
      unfold caught_state. now rewrite Heq.
    - rewrite (run_unreadable env s1 r err Hf Hok Hd). cbn [fst ui].
      unfold caught_state. now rewrite Heq.
    - rewrite (run_succeeded env s1 r d Hf Hok Hd). cbn [fst ui].
      now rewrite Heq.
    - rewrite (run_failed env s1 r Hf Hok). cbn [fst ui]. now rewrite Heq. }
  split; [apply Hown|]. split; [intros s'; apply Hsame|].
  apply Hsame, Hown.
Qed.

Lemma cycle_depends_on_input_only_witness :
  after (answering broken_500) after_a_failure = after (answering broken_500) idle.
Proof.
  destruct (cycle_depends_on_input_only (answering broken_500) idle)
    as (_ & Hsame & _).
  exact (Hsame after_a_failure eq_refl).
Defined.

(** The outcomes of a cycle, with their values. *)
Lemma outcome_cells env s :
  (exists d, result (after env s) = Some d /\ error (after env s) = None)
  \/ (exists msg, result (after env s) = None /\ error (after env s) = Some msg)
  \/ (result (after env s) = None /\ error (after env s) = None
      /\ null_body_success env s).
Proof.
  unfold after, null_body_success.
  destruct (run_cases env s)
    as [(err & Hf & ->) | [(r & err & Hf & Hok & Hd & ->)
      | [(r & d & Hf & Hok & Hd & ->) | (r & Hf & Hok & ->)]]];
    cbn [fst ui].
  - right; left. unfold caught_state; destruct (is_fetch_TypeError err); eauto.
  - right; left. unfold caught_state; destruct (is_fetch_TypeError err); eauto.
  - destruct (stored_result_cases env d) as [[-> ->]|[_ ->]]; cbn; eauto 10.
  - right; left. eauto.
Qed.

Lemma exactly_one_null env s r :
  fetch env (review_request env (prUrl s)) = Normal r ->
  ok r = true ->
  json r = Normal JNull ->
  result (after env s) = None /\ error (after env s) = None.
Proof.
  intros Hf Hok Hj. unfold after.
  rewrite (run_succeeded env s r JNull Hf Hok Hj). split; reflexivity.
Qed.

(** X3.  What the cells hold together when a cycle has settled: a category
    comes only with an error; a retry delay comes only with the rate-limit
    category; a result comes with neither; and the category is network
    only with the connectivity message. *)
Theorem settled_cells_invariant env s :
  (is_Some (errorType (after env s)) -> is_Some (error (after env s)))
  /\ (is_Some (retryAfter (after env s)) ->
      errorType (after env s) = Some rate_limit)
  /\ (is_Some (result (after env s)) ->
      errorType (after env s) = None /\ retryAfter (after env s) = None)
  /\ (errorType (after env s) = Some network ->
      error (after env s) = Some connectivity_message).
Proof.
  assert (Hnone : forall A, @is_Some A None -> False) by (intros A [? [=]]).
  unfold after.
  destruct (run_cases env s)
    as [(err & Hf & ->) | [(r & err & Hf & Hok & Hd & ->)
      | [(r & d & Hf & Hok & Hd & ->) | (r & Hf & Hok & ->)]]];
    cbn [fst ui].
  1,2: unfold caught_state; destruct (is_fetch_TypeError err);
       cbn [result error errorType retryAfter];
       repeat split; intros; eauto; try discriminate;
       exfalso; eauto.
  - cbn [result error errorType retryAfter].
    repeat split; intros; eauto; try discriminate; exfalso; eauto.
  - cbn [result error errorType retryAfter]. unfold retryAfter_of.
    rewrite spec_category_cases.
    destruct (status r =? 429).
    + repeat split; intros; eauto; try discriminate; exfalso; eauto.
    + destruct ((status r =? 400) || (status r =? 413));
        [|destruct ((status r =? 500) || (status r =? 502)
                    || (status r =? 503) || (status r =? 504))];
        repeat split; intros; eauto; try discriminate; exfalso; eauto.
Qed.

Lemma settled_cells_invariant_witness :
  errorType (after (answering too_many_30) idle) = Some rate_limit.
Proof.
  destruct (settled_cells_invariant (answering too_many_30) idle)
    as (_ & Hretry & _).
  apply Hretry. eexists. reflexivity.
Defined.

(* ===================================================================== *)
(** ** The message of a failed response                                   *)
(* ===================================================================== *)

(** The message of a failed response, by the shape of its body. *)
Lemma failed_error env s r :
  fetch env (review_request env (prUrl s)) = Normal r ->
  ok r = false ->
  error (after env s)
  = Some (message (detail_error (errorData_of r) (fallback_message r))).
Proof.
  intros Hf Hok. unfold after. now rewrite (run_failed env s r Hf Hok).
Qed.

(** X4.  When the body of a failed response is a JSON object whose
    [detail] is a non-empty string, that string is the message, whatever
    the status; of a repeated [detail] key the last one counts. *)
Theorem detail_string_is_message env s r members d :
  fetch env (review_request env (prUrl s)) = Normal r ->
  ~ (200 <= status r <= 299) ->
  json r = Normal (JObj members) ->
  own_property "detail" members = Some (JStr d) ->
  d <> EmptyString ->
  error (after env s) = Some d.
Proof.
  intros Hf Hst Hj Hd Hne. apply ok_false_iff in Hst.
  rewrite (failed_error env s r Hf Hst). unfold errorData_of. rewrite Hj.
  cbn [detail_error message]. rewrite Hd.
  destruct d; [congruence | reflexivity].
Qed.

Lemma detail_string_is_message_witness :
  error (after (answering too_many_30) idle)
  = Some "Rate limit exceeded: 5 per 1 minute".
Proof.
  apply (detail_string_is_message (answering too_many_30) idle too_many_30
           [("detail", JStr "Rate limit exceeded: 5 per 1 minute")]);
    [reflexivity | cbn; lia | reflexivity | reflexivity | discriminate].
Defined.

(** X5.  When the body of a failed response is JSON but carries no usable
    [detail] (it is not an object, or the object has no [detail], or its
    [detail] is falsy: null, false, zero or the empty string), the message
    is the text of the arm of the switch: a fixed sentence for each of the
    seven named statuses, and "Error <status>: <status text>" for any
    other. *)
Theorem unusable_detail_falls_back env s r j :
  fetch env (review_request env (prUrl s)) = Normal r ->
  ~ (200 <= status r <= 299) ->
  json r = Normal j ->
  j <> JNull ->
  (forall members v, j = JObj members ->
     own_property "detail" members = Some v -> ToBoolean v = false) ->
  error (after env s) = Some (fallback_message r)
  /\ (status r = 429 -> fallback_message r
        = "Rate limit exceeded. Please wait a moment before trying again.")
  /\ (status r = 400 -> fallback_message r
        = "Invalid request. Please check the PR URL and try again.")
  /\ (status r = 413 -> fallback_message r
        = "PR is too large to review. Please try a smaller PR.")
  /\ (In (status r) [500; 502; 503; 504] -> fallback_message r
        = "Server error. Please try again in a few moments.")
  /\ (~ In (status r) named_statuses -> fallback_message r
        = "Error " +:+ pretty (status r) +:+ ": " +:+ statusText r).
Proof.
  intros Hf Hst Hj Hnull Hdetail. apply ok_false_iff in Hst.
  split.
  - rewrite (failed_error env s r Hf Hst). unfold errorData_of. rewrite Hj.
    destruct j as [| | | |items|members]; try reflexivity; [congruence|].
    cbn [detail_error message].
    destruct (own_property "detail" members) as [v|] eqn:Hv; [|reflexivity].
    unfold or_string. now rewrite (Hdetail members v eq_refl Hv).
  - unfold fallback_message, named_statuses. cbn [In].
    repeat split.
    + intros ->. reflexivity.
    + intros ->. reflexivity.
    + intros ->. reflexivity.
    + intros [<-|[<-|[<-|[<-|[]]]]]; reflexivity.
    + intros Hn.
      destruct (Z.eqb_spec (status r) 429); [lia|].
      destruct (Z.eqb_spec (status r) 400); [lia|].
      destruct (Z.eqb_spec (status r) 413); [lia|].
      destruct (Z.eqb_spec (status r) 500); [lia|].
      destruct (Z.eqb_spec (status r) 502); [lia|].
      destruct (Z.eqb_spec (status r) 503); [lia|].
      destruct (Z.eqb_spec (status r) 504); [lia|].
      reflexivity.
Qed.

Lemma unusable_detail_falls_back_witness :
  error (after (answering (failure 404 "Not Found" None
                             (Normal (JObj [("message", JStr "no such route")]))))
               idle)
  = Some "Error 404: Not Found".
Proof.
  set (j := JObj [("message", JStr "no such route")]).
  set (r := failure 404 "Not Found" None (Normal j)).
  assert (Hst : ~ (200 <= status r <= 299)) by (cbn; lia).
  assert (Hnull : j <> JNull) by discriminate.
  assert (Hdetail : forall members v, j = JObj members ->
            own_property "detail" members = Some v -> ToBoolean v = false)
    by (intros members v [= <-]; discriminate).
  exact (proj1 (unusable_detail_falls_back (answering r) idle r j
                  eq_refl Hst eq_refl Hnull Hdetail)).
Defined.

Lemma ToString_objects items :
  Forall (fun x => exists fields,
            x = JObj fields /\ own_property "toString" fields = None) items ->
  ToString (JArr items)
  = Normal (join_comma (List.map (fun _ => "[object Object]") items)).
Proof.
  intros Hall. cbn [ToString].
  assert (Hparts :
    all_normal (List.map (fun x => match x with
                                   | JNull => Normal EmptyString
                                   | _ => ToString x
                                   end) items)
    = Normal (E := ErrorObject) (List.map (fun _ => "[object Object]") items)).
  { induction Hall as [|x items (fields & -> & Hplain) _ IH]; [reflexivity|].
    cbn [List.map all_normal ToString]. rewrite Hplain, IH. reflexivity. }
  now rewrite Hparts.
Qed.

(** X6.  A [detail] that is itself an object or an array is truthy and is
    turned into a string as JavaScript does.  An object without a member
    named toString gives the message "[object Object]"; an array of such
    objects (the shape of a list of validation errors) gives that text
    once per element, separated by commas.  An object with a member named
    toString cannot become a string: the construction of the error throws
    a TypeError, whose message is then the one shown, and the category
    stays the one of the status. *)
Theorem structured_detail_message env s r members :
  fetch env (review_request env (prUrl s)) = Normal r ->
  ~ (200 <= status r <= 299) ->
  json r = Normal (JObj members) ->
  (forall fields, own_property "detail" members = Some (JObj fields) ->
     own_property "toString" fields = None ->
     error (after env s) = Some "[object Object]")
  /\ (forall fields, own_property "detail" members = Some (JObj fields) ->
      is_Some (own_property "toString" fields) ->
      error (after env s) = Some to_primitive_message
      /\ errorType (after env s) = Some (spec_category (status r)))
  /\ (forall items, own_property "detail" members = Some (JArr items) ->
      Forall (fun x => exists fields,
                x = JObj fields /\ own_property "toString" fields = None)
             items ->
      error (after env s)
      = Some (join_comma (List.map (fun _ => "[object Object]") items))).
Proof.
  intros Hf Hst Hj. apply ok_false_iff in Hst.
  unfold after. rewrite (run_failed env s r Hf Hst). cbn [fst ui error errorType].
  unfold errorData_of. rewrite Hj.
  cbn [detail_error]. split; [|split].
  - intros fields -> Hplain. unfold error_of_value, new_Error.
    cbn [or_string ToBoolean ToString]. now rewrite Hplain.
  - intros fields -> [v Hown]. unfold error_of_value, new_Error.
    cbn [or_string ToBoolean ToString]. rewrite Hown. split; reflexivity.
  - intros items -> Hall. unfold error_of_value, new_Error.
    cbn [or_string ToBoolean]. now rewrite (ToString_objects items Hall).
Qed.

Lemma structured_detail_message_witness :
  error (after (answering
                  (failure 422 "Unprocessable Entity" None
                     (Normal (JObj [("detail",
                                     JArr [JObj [("loc", JArr [JStr "body"; JStr "pr_url"])];
                                           JObj [("msg", JStr "field required")]])]))))
               idle)
  = Some "[object Object],[object Object]".
Proof.
  set (items := [JObj [("loc", JArr [JStr "body"; JStr "pr_url"])];
                 JObj [("msg", JStr "field required")]]).
  set (r := failure 422 "Unprocessable Entity" None
              (Normal (JObj [("detail", JArr items)]))).
  assert (Hst : ~ (200 <= status r <= 299)) by (cbn; lia).
  assert (Hall : Forall (fun x => exists fields,
                           x = JObj fields
                           /\ own_property "toString" fields = None) items)
    by (repeat constructor; eexists; split; reflexivity).
  destruct (structured_detail_message (answering r) idle r
              [("detail", JArr items)] eq_refl Hst eq_refl)
    as (_ & _ & Harr).
  exact (Harr items eq_refl Hall).
Defined.

(** An object that names its own toString. *)
Example own_toString_detail :
  after (answering (failure 500 "Internal Server Error" None
                      (Normal (JObj [("detail",
                                      JObj [("toString", JStr "fetch")])]))))
        idle
  = mkState (prUrl idle) false None
            (Some "Cannot convert object to primitive value")
            (Some server) None.
Proof. reflexivity. Qed.

(** X7.  When the body of a failed response is the JSON value null, the
    read of [detail] throws; the exception is caught like any other, so
    the message shown is the one of that TypeError, while the category set
    just before stays the one of the status. *)
Theorem null_body_message env s r :
  fetch env (review_request env (prUrl s)) = Normal r ->
  ~ (200 <= status r <= 299) ->
  json r = Normal JNull ->
  error (after env s) = Some (null_property_message "detail")
  /\ errorType (after env s) = Some (spec_category (status r))
  /\ snd (run env s) = Normal tt.
Proof.
  intros Hf Hst Hj. apply ok_false_iff in Hst.
  unfold after. rewrite (run_failed env s r Hf Hst). cbn [fst snd ui].
  unfold errorData_of. rewrite Hj. repeat split.
Qed.

Lemma null_body_message_witness :
  error (after (answering (failure 502 "Bad Gateway" None (Normal JNull))) idle)
  = Some "Cannot read properties of null (reading 'detail')".
Proof.
  set (r := failure 502 "Bad Gateway" None (Normal JNull)).
  assert (Hst : ~ (200 <= status r <= 299)) by (cbn; lia).
  exact (proj1 (null_body_message (answering r) idle r eq_refl Hst eq_refl)).
Defined.

(** X8.  A response with a status in 200-299 whose body cannot be read as
    JSON ends like a rejected request: no result, the message of the
    exception (or the fixed text for a thrown value that is no Error), and
    no category, unless the exception is a TypeError naming fetch, which
    gives the network category although a response did arrive. *)
Theorem unreadable_success_body env s r err :
  fetch env (review_request env (prUrl s)) = Normal r ->
  200 <= status r <= 299 ->
  json r = Abrupt err ->
  after env s = caught_state s err
  /\ result (after env s) = None
  /\ (is_fetch_TypeError err = false ->
      errorType (after env s) = None
      /\ error (after env s) = Some (caught_message err))
  /\ (is_fetch_TypeError err = true ->
      errorType (after env s) = Some network
      /\ error (after env s) = Some connectivity_message).
Proof.
  intros Hf Hst Hd.
  assert (Hok : ok r = true).
  { unfold ok. apply andb_true_iff. rewrite !Z.leb_le. lia. }
  unfold after. rewrite (run_unreadable env s r err Hf Hok Hd).
  cbn [fst ui]. unfold caught_state.
  split; [reflexivity|].
  destruct (is_fetch_TypeError err); repeat split; discriminate.
Qed.

Lemma unreadable_success_body_witness :
  error (after (answering (mkHttp 200 "OK" None (Abrupt SyntaxError_json)))
               idle)
  = Some "Unexpected token '<' is not valid JSON".
Proof.
  set (r := mkHttp 200 "OK" None (Abrupt SyntaxError_json)).
  assert (Hst : 200 <= status r <= 299) by (cbn; lia).
  destruct (unreadable_success_body (answering r) idle r SyntaxError_json
              eq_refl Hst eq_refl) as (_ & _ & Hplain & _).
  exact (proj2 (Hplain eq_refl)).
Defined.

(** X9.  The Retry-After header is read under status 429 only: any other
    failed response leaves the retry delay null and shows neither the wait
    hint nor the generic tip, whatever the header says. *)
Theorem retry_after_ignored_elsewhere env s r :
  fetch env (review_request env (prUrl s)) = Normal r ->
  ~ (200 <= status r <= 299) ->
  status r <> 429 ->
  retryAfter (after env s) = None
  /\ rate_limit_hints (after env s) = [].
Proof.
  intros Hf Hst Hn. apply ok_false_iff in Hst.
  unfold after. rewrite (run_failed env s r Hf Hst). cbn [fst ui].
  unfold retryAfter_of, rate_limit_hints.
  cbn [retryAfter errorType]. rewrite spec_category_cases.
  destruct (Z.eqb_spec (status r) 429) as [|_]; [contradiction|].
  split; [reflexivity|].
  destruct ((status r =? 400) || (status r =? 413));
    [|destruct ((status r =? 500) || (status r =? 502) || (status r =? 503)
                || (status r =? 504))];
    reflexivity.
Qed.

Lemma retry_after_ignored_elsewhere_witness :
  retryAfter (after (answering (failure 503 "Service Unavailable" (Some "120")
                                        (Normal (JObj [])))) idle) = None.
Proof.
  set (r := failure 503 "Service Unavailable" (Some "120") (Normal (JObj []))).
  assert (Hst : ~ (200 <= status r <= 299)) by (cbn; lia).
  assert (Hn : status r <> 429) by (cbn; lia).
  exact (proj1 (retry_after_ignored_elsewhere (answering r) idle r eq_refl Hst Hn)).
Defined.

(* ===================================================================== *)
(** ** Strings: [includes] and [parseInt]                                 *)
(* ===================================================================== *)

Lemma append_cons a s t : String a s +:+ t = String a (s +:+ t).
Proof. reflexivity. Qed.

Lemma prefix_spec p s :
  String.prefix p s = true <-> exists rest, s = p +:+ rest.
Proof.
  revert s. induction p as [|a p IH]; intros s.
  - cbn. split; [eauto|]. destruct s; reflexivity.
  - destruct s as [|b s].
    + cbn. split; [discriminate|]. intros (rest & H).
      rewrite append_cons in H. discriminate.
    + cbn [String.prefix]. destruct (ascii_dec a b) as [->|Hab].
      * rewrite IH. split; intros (rest & H); exists rest.
        -- rewrite append_cons. now f_equal.
        -- rewrite append_cons in H. now injection H.
      * split; [discriminate|]. intros (rest & H).
        rewrite append_cons in H. congruence.
Qed.

(** [includes] finds the needle wherever it occurs. *)
Lemma includes_spec needle s :
  includes needle s = true <-> exists pre post, s = pre +:+ needle +:+ post.
Proof.
  split.
  - induction s as [|a s IH]; cbn [includes]; rewrite orb_true_iff.
    + intros [H|H]; [|discriminate].
      apply prefix_spec in H as (rest & ->). now exists EmptyString, rest.
    + intros [H|H].
      * apply prefix_spec in H as (rest & ->). now exists EmptyString, rest.
      * destruct (IH H) as (pre & post & ->). now exists (String a pre), post.
  - intros (pre & post & ->). induction pre as [|a pre IH].
    + change (EmptyString +:+ needle +:+ post) with (needle +:+ post).
      assert (Hp : String.prefix needle (needle +:+ post) = true)
        by (apply prefix_spec; eauto).
      destruct (needle +:+ post); cbn [includes]; now rewrite Hp.
    + rewrite append_cons. cbn [includes]. rewrite IH. apply orb_true_r.
Qed.

(** X10.  A rejected request is put in the network category exactly when
    what was thrown is a TypeError whose message has the letters "fetch"
    somewhere in it; the class of the error alone, or the word alone in
    an error of another class, does not suffice. *)
Theorem network_iff_fetch_in_message env s err :
  fetch env (review_request env (prUrl s)) = Abrupt err ->
  (errorType (after env s) = Some network <->
   exists pre post,
     err = ThrownError (mkError ClsTypeError (pre +:+ "fetch" +:+ post))).
Proof.
  intros Hf. unfold after. rewrite (run_rejected env s err Hf).
  cbn [fst ui]. unfold caught_state.
  destruct (is_fetch_TypeError err) eqn:Hn; cbn [errorType].
  - split; [intros _|reflexivity].
    destruct err as [[cls msg]|]; [|discriminate].
    cbn in Hn. apply andb_true_iff in Hn as [Hc Hi].
    destruct cls; try discriminate.
    apply includes_spec in Hi as (pre & post & ->). eauto.
  - split; [discriminate|]. intros (pre & post & ->).
    cbn in Hn.
    assert (Hi : includes "fetch" (pre +:+ "fetch" +:+ post) = true)
      by (apply includes_spec; eauto).
    rewrite Hi in Hn. discriminate.
Qed.

Lemma network_iff_fetch_in_message_witness :
  errorType
    (after (unreachable
              (ThrownError (mkError ClsTypeError
                 "NetworkError when attempting to fetch resource.")))
           idle)
  = Some network.
Proof.
  apply (network_iff_fetch_in_message
           (unreachable (ThrownError (mkError ClsTypeError
              "NetworkError when attempting to fetch resource.")))
           idle _ eq_refl).
  exists "NetworkError when attempting to ", " resource.". reflexivity.
Defined.

(** *** Decimal numerals read back *)

Lemma pretty_digit_value (d : N) :
  (d < 10)%N -> digit_value 10 (pretty_N_char d) = Some (Z.of_N d).
Proof.
  intros Hd.
  assert (d = 0 \/ d = 1 \/ d = 2 \/ d = 3 \/ d = 4 \/ d = 5 \/ d = 6
          \/ d = 7 \/ d = 8 \/ d = 9)%N as H by lia.
  repeat (destruct H as [->|H]; [reflexivity|]). now subst.
Qed.

Lemma pretty_digit_nonzero (d : N) :
  (0 < d < 10)%N ->
  is_decimal_digit (pretty_N_char d) = true /\ pretty_N_char d <> "0"%char.
Proof.
  intros Hd.
  assert (d = 1 \/ d = 2 \/ d = 3 \/ d = 4 \/ d = 5 \/ d = 6
          \/ d = 7 \/ d = 8 \/ d = 9)%N as H by lia.
  repeat (destruct H as [->|H]; [split; [reflexivity|discriminate]|]).
  subst. split; [reflexivity|discriminate].
Qed.

(** The digits that [pretty] writes for [x] read back as [x]. *)
Lemma parse_pretty_go (x : N) : forall s,
  (0 < x)%N ->
  parse_digits 10 (pretty_N_go x s) None
  = parse_digits 10 s (Some (Z.of_N x)).
Proof.
  induction (N.lt_wf_0 x) as [x _ IH]. intros s Hx.
  rewrite pretty_N_go_step by exact Hx.
  assert (Hmod : (x `mod` 10 < 10)%N) by (apply N.mod_lt; lia).
  assert (Hsplit : Z.of_N x = Z.of_N (x `div` 10)%N * 10 + Z.of_N (x `mod` 10)%N).
  { rewrite (N.div_mod x 10%N) at 1 by lia. lia. }
  destruct (N.eq_dec (x `div` 10)%N 0%N) as [H0|Hpos].
  - rewrite H0, pretty_N_go_0. cbn [parse_digits].
    rewrite (pretty_digit_value _ Hmod). rewrite H0 in Hsplit.
    cbn [default]. now rewrite Hsplit.
  - rewrite IH; [|apply N.div_lt; lia|apply N.neq_0_lt_0; exact Hpos].
    cbn [parse_digits]. rewrite (pretty_digit_value _ Hmod).
    cbn [default]. now rewrite Hsplit.
Qed.

(** A numeral starts with a digit other than zero. *)
Lemma pretty_go_head (x : N) : forall s,
  (0 < x)%N ->
  exists c t, pretty_N_go x s = String c t
              /\ is_decimal_digit c = true /\ c <> "0"%char.
Proof.
  induction (N.lt_wf_0 x) as [x _ IH]. intros s Hx.
  rewrite pretty_N_go_step by exact Hx.
  destruct (N.eq_dec (x `div` 10)%N 0%N) as [H0|Hpos].
  - rewrite H0, pretty_N_go_0.
    assert (Hlt : (x < 10)%N) by (apply N.div_small_iff in H0; lia).
    rewrite N.mod_small by exact Hlt.
    destruct (pretty_digit_nonzero x) as [Hd Hz]; [lia|]. eauto.
  - apply IH; [apply N.div_lt; lia | apply N.neq_0_lt_0; exact Hpos].
Qed.

Lemma pretty_go_append (x : N) : forall s t,
  pretty_N_go x s +:+ t = pretty_N_go x (s +:+ t).
Proof.
  induction (N.lt_wf_0 x) as [x _ IH]. intros s t.
  destruct (N.eq_dec x 0%N) as [->|Hx]; [now rewrite !pretty_N_go_0|].
  apply N.neq_0_lt_0 in Hx.
  rewrite (pretty_N_go_step x s), (pretty_N_go_step x (s +:+ t)) by exact Hx.
  rewrite IH by (apply N.div_lt; [exact Hx | reflexivity]).
  now rewrite append_cons.
Qed.

(** [parseInt] on a string that starts with a digit other than zero: no
    white space to drop, no sign, no hexadecimal prefix. *)
Lemma parseInt_digit_head c t :
  is_decimal_digit c = true -> c <> "0"%char ->
  parseInt (String c t)
  = match parse_digits 10 (String c t) None with
    | None => NaN
    | Some m => Number_of_integer (1 * m)
    end
  /\ parseInt (String "-" (String c t))
     = match parse_digits 10 (String c t) None with
       | None => NaN
       | Some m => Number_of_integer (-1 * m)
       end.
Proof.
  intros Hd Hz.
  destruct c as [[] [] [] [] [] [] [] []];
    try discriminate Hd; try congruence; split; reflexivity.
Qed.

Lemma digit_value_other c :
  is_decimal_digit c = false -> digit_value 10 c = None.
Proof.
  unfold is_decimal_digit, digit_value.
  set (n := Z.of_nat (nat_of_ascii c)). intros ->.
  destruct ((97 <=? n) && (n <=? 122)) eqn:Hl.
  - apply andb_true_iff in Hl as [H1 H2]. apply Z.leb_le in H1.
    destruct (Z.ltb_spec (n - 87) 10); [lia | reflexivity].
  - destruct ((65 <=? n) && (n <=? 90)) eqn:Hu; [|reflexivity].
    apply andb_true_iff in Hu as [H1 H2]. apply Z.leb_le in H1.
    destruct (Z.ltb_spec (n - 55) 10); [lia | reflexivity].
Qed.

Lemma parse_digits_stop rest v :
  no_digit_ahead rest -> parse_digits 10 rest (Some v) = Some v.
Proof.
  destruct rest as [|c t]; [reflexivity|]. cbn [no_digit_ahead parse_digits].
  intros Hc. now rewrite (digit_value_other c Hc).
Qed.

(** [parseInt] reads the decimal numeral of any integer other than zero
    as the Number of that integer, and stops at whatever follows it that
    is not a digit. *)
Lemma parseInt_numeral (n : Z) rest :
  n <> 0 -> no_digit_ahead rest ->
  parseInt (pretty n +:+ rest) = Number_of_integer n.
Proof.
  intros Hn Hrest. destruct n as [|p|p]; [congruence| |].
  - change (pretty (Z.pos p)) with (pretty_N_go (N.pos p) EmptyString).
    rewrite pretty_go_append. change (EmptyString +:+ rest) with rest.
    destruct (pretty_go_head (N.pos p) rest) as (c & t & Heq & Hd & Hz); [lia|].
    pose proof (parse_pretty_go (N.pos p) rest ltac:(lia)) as Hparse.
    rewrite Heq in *.
    rewrite (proj1 (parseInt_digit_head c t Hd Hz)), Hparse.
    rewrite (parse_digits_stop rest _ Hrest). f_equal; lia.
  - change (pretty (Z.neg p) +:+ rest)
      with (String "-" (pretty_N_go (N.pos p) EmptyString +:+ rest)).
    rewrite pretty_go_append. change (EmptyString +:+ rest) with rest.
    destruct (pretty_go_head (N.pos p) rest) as (c & t & Heq & Hd & Hz); [lia|].
    pose proof (parse_pretty_go (N.pos p) rest ltac:(lia)) as Hparse.
    rewrite Heq in *.
    rewrite (proj2 (parseInt_digit_head c t Hd Hz)), Hparse.
    rewrite (parse_digits_stop rest _ Hrest). f_equal; lia.
Qed.

Lemma numeral_truthy (n : Z) rest :
  n <> 0 -> String_truthy (pretty n +:+ rest) = true.
Proof.
  intros Hn. destruct n as [|p|p]; [congruence| |].
  - change (pretty (Z.pos p)) with (pretty_N_go (N.pos p) EmptyString).
    rewrite pretty_go_append.
    destruct (pretty_go_head (N.pos p) (EmptyString +:+ rest))
      as (c & t & -> & _); [lia | reflexivity].
  - reflexivity.
Qed.

Lemma Number_of_integer_safe n :
  isSafeInteger n -> Number_of_integer n = Int n.
Proof.
  unfold isSafeInteger, Number_of_integer. intros Hn.
  destruct (Z.ltb_spec (Z.abs n) (2 ^ 53)) as [_|Hbig]; [reflexivity | lia].
Qed.

Lemma Number_of_integer_truthy n :
  n <> 0 -> Number_truthy (Number_of_integer n) = true.
Proof.
  intros Hn. unfold Number_of_integer.
  destruct (Z.abs n <? 2 ^ 53).
  - cbn [Number_truthy]. now destruct (Z.eqb_spec n 0).
  - destruct (round_to_double (Z.abs n)); reflexivity.
Qed.

(** The error panel of the rate-limit category, when it is shown. *)
Lemma rate_limit_panel_shown base s msg :
  errorType s = Some rate_limit ->
  error s = Some msg ->
  msg <> EmptyString ->
  errorPanel base s = rate_limit_panel msg (rate_limit_hints s).
Proof.
  intros Ht He Hne. unfold errorPanel. rewrite He.
  destruct msg as [|c m]; [congruence|].
  unfold string_and, rate_limit_panel, error_title, network_tip,
    retry_button, jsx_string.
  rewrite Ht.
  cbn [String_truthy errorType_is ErrorType_eqb bool_and orb app].
  rewrite !app_nil_r. reflexivity.
Qed.

(** X11.  A 429 whose Retry-After header is the decimal numeral of an
    integer [n] other than zero, alone or followed by anything that does
    not start with a digit (a unit, a fraction, a second value after a
    comma), stores the Number of [n] as the retry delay: [n] itself when
    [n] is a safe integer, and the double nearest to it otherwise.  The
    hints of the error panel are then the wait hint with that number, and
    no generic tip; the panel carrying them is shown whenever the message
    is not empty. *)
Theorem retry_after_numeral env s r n rest :
  fetch env (review_request env (prUrl s)) = Normal r ->
  status r = 429 ->
  Retry_After r = Some (pretty n +:+ rest) ->
  n <> 0 ->
  no_digit_ahead rest ->
  retryAfter (after env s) = Some (Number_of_integer n)
  /\ rate_limit_hints (after env s) = [wait_hint (Number_of_integer n)]
  /\ (forall msg, error (after env s) = Some msg -> msg <> EmptyString ->
      errorPanel (SERVER_URL env) (after env s)
      = rate_limit_panel msg [wait_hint (Number_of_integer n)])
  /\ (isSafeInteger n -> Number_of_integer n = Int n).
Proof.
  intros Hf Hst Hh Hn Hrest.
  assert (Hok : ok r = false) by (unfold ok; rewrite Hst; reflexivity).
  assert (Hcell : retryAfter (after env s) = Some (Number_of_integer n)).
  { unfold after. rewrite (run_failed env s r Hf Hok). cbn [fst ui].
    unfold retryAfter_of. cbn [retryAfter].
    now rewrite Hst, Hh, (numeral_truthy n rest Hn),
      (parseInt_numeral n rest Hn Hrest). }
  assert (Hcat : errorType (after env s) = Some rate_limit).
  { unfold after. rewrite (run_failed env s r Hf Hok). cbn [fst ui errorType].
    now rewrite Hst. }
  assert (Hhints : rate_limit_hints (after env s)
                   = [wait_hint (Number_of_integer n)]).
  { unfold rate_limit_hints. rewrite Hcat, Hcell.
    cbn [errorType_is ErrorType_eqb bool_and number_and number_not].
    now rewrite (Number_of_integer_truthy n Hn). }
  split; [exact Hcell|]. split; [exact Hhints|]. split.
  - intros msg He Hne. rewrite <- Hhints.
    now apply rate_limit_panel_shown.
  - apply Number_of_integer_safe.
Qed.

Lemma retry_after_numeral_witness :
  retryAfter (after (answering (failure 429 "Too Many Requests" (Some "120, 60")
                                        (Normal (JObj [])))) idle)
  = Some (Int 120).
Proof.
  set (r := failure 429 "Too Many Requests" (Some "120, 60") (Normal (JObj []))).
  assert (Hn : (120 : Z) <> 0) by lia.
  assert (Hrest : no_digit_ahead ", 60") by reflexivity.
  exact (proj1 (retry_after_numeral (answering r) idle r 120 ", 60"
                  eq_refl eq_refl eq_refl Hn Hrest)).
Defined.

(** Beyond the safe integers the delay is the nearest double, and it
    prints as JavaScript prints that double. *)
Example retry_after_beyond_safe :
  retryAfter (after (answering (failure 429 "Too Many Requests"
                                        (Some "9007199254740993")
                                        (Normal (JObj [])))) idle)
  = Some (Big 9007199254740992)
  /\ List.map Number_toString
       [Number_of_integer (2 ^ 60); Number_of_integer (2 ^ 70);
        Number_of_integer (10 ^ 21); Number_of_integer (10 ^ 309)]
     = ["1152921504606847000"; "1.1805916207174113e+21"; "1e+21"; "Infinity"].
Proof. split; vm_compute; reflexivity. Qed.

(* ===================================================================== *)
(** ** The error panel                                                    *)
(* ===================================================================== *)

(** X12.  The heading of the error panel holds exactly one title, whatever
    the category: the six conditions of the source exclude each other and
    miss no case.  The general category and the absence of a category
    share the title "Error". *)
Theorem error_title_single s :
  error_title s
  = El "h3" [Text match errorType s with
                  | Some rate_limit => "Rate Limit Exceeded"
                  | Some validation => "Invalid Request"
                  | Some network => "Connection Error"
                  | Some server => "Server Error"
                  | Some general | None => "Error"
                  end].
Proof. unfold error_title. destruct (errorType s) as [[]|]; reflexivity. Qed.

(** The button as a fragment, whether or not the panel is shown. *)
Lemma retry_button_after env s :
  (retry_button (after env s) = [El "button" [Text "Try Again"]] <->
   exists r, fetch env (review_request env (prUrl s)) = Normal r
             /\ ~ (200 <= status r <= 299)
             /\ status r <> 429 /\ status r <> 400 /\ status r <> 413)
  /\ (retry_button (after env s) = [El "button" [Text "Try Again"]]
      \/ retry_button (after env s) = []).
Proof.
  unfold after, retry_button.
  destruct (run_cases env s)
    as [(err & Hf & ->) | [(r & err & Hf & Hok & Hd & ->)
      | [(r & d & Hf & Hok & Hd & ->) | (r & Hf & Hok & ->)]]];
    cbn [fst ui].
  - assert (Hno : errorType_is (errorType (caught_state s err)) server
                  || errorType_is (errorType (caught_state s err)) general
                  = false)
      by (unfold caught_state; destruct (is_fetch_TypeError err); reflexivity).
    rewrite Hno. cbn [bool_and]. split; [|auto].
    split; [discriminate|]. intros (r & Hr & _). congruence.
  - assert (Hno : errorType_is (errorType (caught_state s err)) server
                  || errorType_is (errorType (caught_state s err)) general
                  = false)
      by (unfold caught_state; destruct (is_fetch_TypeError err); reflexivity).
    rewrite Hno. cbn [bool_and]. split; [|auto].
    split; [discriminate|]. intros (r' & Hr & Hst & _).
    apply ok_false_iff in Hst. congruence.
  - cbn. split; [|auto].
    split; [discriminate|]. intros (r' & Hr & Hst & _).
    apply ok_false_iff in Hst. congruence.
  - cbn [errorType]. rewrite spec_category_cases.
    destruct (Z.eqb_spec (status r) 429) as [E1|N1].
    { cbn. split; [|auto]. split; [discriminate|].
      intros (r' & Hr & _ & H & _). congruence. }
    destruct (Z.eqb_spec (status r) 400) as [E2|N2].
    { cbn. split; [|auto]. split; [discriminate|].
      intros (r' & Hr & _ & _ & H & _). congruence. }
    destruct (Z.eqb_spec (status r) 413) as [E3|N3].
    { cbn. split; [|auto]. split; [discriminate|].
      intros (r' & Hr & _ & _ & _ & H). congruence. }
    cbn [orb].
    assert (Hyes : forall b : bool,
               errorType_is (Some (if b then server else general)) server
               || errorType_is (Some (if b then server else general)) general
               = true) by (intros []; reflexivity).
    rewrite Hyes. cbn [bool_and]. split; [|auto].
    split; [|reflexivity]. intros _. exists r.
    apply ok_false_iff in Hok. auto.
Qed.

Lemma panel_body_errorPanel base s :
  panel_body (errorPanel base s)
  = match error s with
    | Some msg =>
        if String_truthy msg
        then ([error_title s; El "p" (jsx_string msg)]
              ++ rate_limit_hints s ++ network_tip base s ++ retry_button s)%list
        else []
    | None => []
    end.
Proof.
  unfold errorPanel, string_and. destruct (error s) as [msg|]; [|reflexivity].
  destruct (String_truthy msg); reflexivity.
Qed.

Lemma button_only_in_retry base s msg :
  In (El "button" [Text "Try Again"])
     ([error_title s; El "p" (jsx_string msg)]
      ++ rate_limit_hints s ++ network_tip base s ++ retry_button s)%list
  <-> retry_button s = [El "button" [Text "Try Again"]].
Proof.
  rewrite !in_app_iff. split.
  - intros [H|[H|[H|H]]].
    + destruct H as [H|[H|[]]]; discriminate H.
    + exfalso. unfold rate_limit_hints, bool_and, number_and in H.
      destruct (errorType_is (errorType s) rate_limit);
        destruct (retryAfter s) as [n|]; cbn in H;
        try destruct (Number_truthy n); cbn in H;
        repeat (destruct H as [H|H]; try discriminate H); exact H.
    + exfalso. unfold network_tip, bool_and in H.
      destruct (errorType_is (errorType s) network); cbn in H;
        repeat (destruct H as [H|H]; try discriminate H); exact H.
    + unfold retry_button, bool_and in *.
      destruct (errorType_is (errorType s) server
                || errorType_is (errorType s) general);
        [reflexivity | destruct H].
  - intros ->. right; right; right. now left.
Qed.

(** X13.  After a cycle the Try Again button is on the page exactly when
    the server answered with a failed status other than 429, 400 and 413
    and the message of the failure is not empty: not after a rate limit,
    not after a rejected input, not after a rejected request or an
    unreadable review (network category included), and not when an empty
    message hides the whole panel. *)
Theorem retry_offered_iff env s :
  In (El "button" [Text "Try Again"])
     (panel_body (errorPanel (SERVER_URL env) (after env s)))
  <-> exists r msg,
        fetch env (review_request env (prUrl s)) = Normal r
        /\ ~ (200 <= status r <= 299)
        /\ status r <> 429 /\ status r <> 400 /\ status r <> 413
        /\ error (after env s) = Some msg /\ msg <> EmptyString.
Proof.
  rewrite panel_body_errorPanel.
  destruct (retry_button_after env s) as [Hiff _].
  destruct (error (after env s)) as [msg|] eqn:He.
  - destruct msg as [|c m]; cbn [String_truthy].
    + split; [intros []|]. intros (r & msg & _ & _ & _ & _ & _ & [= <-] & Hne).
      congruence.
    + rewrite button_only_in_retry, Hiff. split.
      * intros (r & Hf & Hst & H1 & H2 & H3). exists r, (String c m).
        repeat split; auto; discriminate.
      * intros (r & msg & Hf & Hst & H1 & H2 & H3 & _). exists r. auto.
  - split; [intros []|]. intros (r & msg & _ & _ & _ & _ & _ & [=] & _).
Qed.

Lemma retry_offered_iff_witness :
  In (El "button" [Text "Try Again"])
     (panel_body (errorPanel (SERVER_URL (answering broken_500))
                             (after (answering broken_500) idle))).
Proof.
  apply (proj2 (retry_offered_iff (answering broken_500) idle)).
  exists broken_500, "Internal Server Error".
  cbn. repeat split; (lia || discriminate).
Defined.

(** A 500 whose detail is an empty array: the message is empty, the panel
    is hidden, and the button with it. *)
Example retry_hidden_with_panel :
  panel_body
    (errorPanel (Some "http://localhost:8000")
       (after (answering (failure 500 "Internal Server Error" None
                            (Normal (JObj [("detail", JArr [])])))) idle))
  = [].
Proof. reflexivity. Qed.

(** X14.  What the page shows of the two panels when a cycle has settled.
    The error panel and the result panel are never shown together.  A
    failure with a message that is not empty shows the error panel and
    nothing else.  Nothing at all is shown when the message of a failure
    is the empty string, which is falsy and so hides the panel, and when a
    response with a status in 200-299 has the body null. *)
Theorem panels_after_cycle env s :
  (errorPanel (SERVER_URL env) (after env s) = []
   \/ resultPanel (result (after env s)) = [])
  /\ (forall msg, error (after env s) = Some msg -> msg <> EmptyString ->
      exists panel, errorPanel (SERVER_URL env) (after env s) = [panel]
                    /\ panels env (after env s) = [panel])
  /\ (error (after env s) = Some EmptyString -> panels env (after env s) = [])
  /\ (null_body_success env s -> panels env (after env s) = []).
Proof.
  unfold panels, errorPanel.
  destruct (outcome_cells env s)
    as [(d & Hr & He)|[(msg & Hr & He)|(Hr & He & Hnull)]];
    rewrite Hr, He; cbn [string_and resultPanel].
  - split; [now left|]. split; [discriminate|]. split; [discriminate|].
    intros (r & Hf & Hok & Hj).
    destruct (exactly_one_null env s r Hf Hok Hj) as [Hres _].
    congruence.
  - split; [now right|]. split; [|split].
    + intros msg' [= <-] Hne. destruct msg as [|c m]; [congruence|].
      cbn [String_truthy]. eexists. rewrite app_nil_r. split; reflexivity.
    + intros [= ->]. reflexivity.
    + intros (r & Hf & Hok & Hj).
      destruct (exactly_one_null env s r Hf Hok Hj) as [_ Herr].
      congruence.
  - split; [now left|]. split; [discriminate|]. split; [discriminate|].
    reflexivity.
Qed.

Lemma panels_after_cycle_witness :
  error (after (answering (failure 400 "Bad Request" None
                             (Normal (JObj [("detail", JArr [])])))) idle)
    = Some EmptyString
  /\ panels (answering (failure 400 "Bad Request" None
                          (Normal (JObj [("detail", JArr [])]))))
            (after (answering (failure 400 "Bad Request" None
                                 (Normal (JObj [("detail", JArr [])])))) idle)
     = [].
Proof.
  set (env := answering (failure 400 "Bad Request" None
                           (Normal (JObj [("detail", JArr [])])))).
  destruct (panels_after_cycle env idle) as (_ & _ & Hempty & _).
  split; [reflexivity | exact (Hempty eq_refl)].
Defined.

(** X15.  The border and the message of the error panel are drawn in one
    colour, fixed by the category: orange for rate_limit, yellow for
    validation, blue for network, and red for server, general and no
    category alike. *)
Theorem panel_colours_agree t :
  panel_class t
  = "border-" +:+ spec_colour t +:+ "-600 bg-" +:+ spec_colour t +:+ "-50"
  /\ message_class t = "text-" +:+ spec_colour t +:+ "-800".
Proof. destruct t as [[]|]; split; reflexivity. Qed.

(** X16.  A retry delay that is zero or NaN (a Retry-After of 0, or one
    that is not a number) does not hide silently: under the rate-limit
    category the number itself is left on the page, followed by the
    generic tip. *)
Theorem falsy_retry_delay_is_printed s n :
  errorType s = Some rate_limit ->
  retryAfter s = Some n ->
  Number_truthy n = false ->
  rate_limit_hints s = [Num n; generic_tip]
  /\ List.map textContent (rate_limit_hints s)
     = [Number_toString n; textContent generic_tip].
Proof.
  intros Ht Hr Hn. unfold rate_limit_hints. rewrite Ht, Hr.
  cbn [errorType_is ErrorType_eqb bool_and number_and number_not].
  rewrite Hn. split; reflexivity.
Qed.

Lemma falsy_retry_delay_is_printed_witness :
  rate_limit_hints (after (answering too_many_date) idle)
  = [Num NaN; generic_tip].
Proof.
  exact (proj1 (falsy_retry_delay_is_printed
                  (after (answering too_many_date) idle) NaN
                  eq_refl eq_refl eq_refl)).
Defined.

(* ===================================================================== *)
(** ** The form, the badges and the tiles                                 *)
(* ===================================================================== *)


(** X18.  Typing in the input changes the input and nothing else: a
    result or an error on the page stays while the URL is edited.  The
    next submission then sends the URL as typed. *)
Theorem typed_url_is_sent env s value :
  let typed := ui (fst (onChange value (mkWorld s []))) in
  prUrl typed = value
  /\ panels env typed = panels env s
  /\ loading typed = loading s
  /\ requests (log (fst (run env typed)))
     = [mkRequest (default "undefined" (SERVER_URL env) +:+ "/review/pr")
                  "POST" [("Content-Type", "application/json")]
                  (JObj [("pr_url", JStr value)])].
Proof.
  intros typed. subst typed. rewrite onChange_run. cbn [fst ui].
  repeat split.
  set (typed := mkState value _ _ _ _ _).
  destruct (run_cases env typed)
    as [(err & Hf & ->) | [(r & err & Hf & Hok & Hd & ->)
      | [(r & d & Hf & Hok & Hd & ->) | (r & Hf & Hok & ->)]]];
    reflexivity.
Qed.

Lemma eqb_false_of (a b : string) : a <> b -> String.eqb a b = false.
Proof. intros H. now apply String.eqb_neq. Qed.

(** X19.  The badge of an agent has its own colours for exactly the four
    names logic, security, performance and style, compared as written
    (case matters), and these four differ from each other; every other
    name, the empty one included, gets the grey badge. *)
Theorem agent_badge_classes (a b : string) :
  (agent_class a = "bg-gray-100 text-gray-800" <->
   ~ In a ["logic"; "security"; "performance"; "style"])
  /\ (In a ["logic"; "security"; "performance"; "style"] ->
      agent_class a = agent_class b -> a = b).
Proof.
  assert (Hknown : forall x, In x ["logic"; "security"; "performance"; "style"] ->
            agent_class x <> "bg-gray-100 text-gray-800"
            /\ (x = "logic" /\ agent_class x = "bg-blue-100 text-blue-800"
                \/ x = "security" /\ agent_class x = "bg-red-100 text-red-800"
                \/ x = "performance" /\ agent_class x = "bg-orange-100 text-orange-800"
                \/ x = "style" /\ agent_class x = "bg-purple-100 text-purple-800")).
  { intros x [<-|[<-|[<-|[<-|[]]]]]; (split; [discriminate|]); auto 10. }
  assert (Hother : forall x, ~ In x ["logic"; "security"; "performance"; "style"] ->
            agent_class x = "bg-gray-100 text-gray-800").
  { intros x Hx. cbn [In] in Hx. unfold agent_class.
    rewrite !eqb_false_of by (intros ->; tauto). reflexivity. }
  assert (Hdec : forall x, In x ["logic"; "security"; "performance"; "style"]
                           \/ ~ In x ["logic"; "security"; "performance"; "style"]).
  { intros x. destruct (in_dec string_dec x
                          ["logic"; "security"; "performance"; "style"]); auto. }
  split.
  - split.
    + intros Hc Hin. now destruct (Hknown a Hin).
    + apply Hother.
  - intros Ha Heq. destruct (Hdec b) as [Hb|Hb].
    + destruct (Hknown a Ha) as (_ & Hca), (Hknown b Hb) as (_ & Hcb).
      destruct Hca as [[-> Ea]|[[-> Ea]|[[-> Ea]|[-> Ea]]]];
        destruct Hcb as [[-> Eb]|[[-> Eb]|[[-> Eb]|[-> Eb]]]];
        try reflexivity; rewrite Ea, Eb in Heq; discriminate Heq.
    + rewrite (Hother b Hb) in Heq. now destruct (Hknown a Ha).
Qed.

Lemma agent_badge_classes_witness :
  agent_class "Logic" = "bg-gray-100 text-gray-800".
Proof.
  apply (proj1 (agent_badge_classes "Logic" "Logic")).
  cbn. intros [H|[H|[H|[H|[]]]]]; discriminate H.
Defined.

(** X20.  The badge of a severity is red for high and orange for medium,
    compared as written; every other value is drawn green, so that low, an
    unknown severity such as critical and the empty string look alike. *)
Theorem severity_badge_classes (sev : string) :
  (sev = "high" -> severity_class sev = "bg-red-200 text-red-900")
  /\ (sev = "medium" -> severity_class sev = "bg-orange-200 text-orange-900")
  /\ (severity_class sev = "bg-green-200 text-green-900" <->
      sev <> "high" /\ sev <> "medium").
Proof.
  unfold severity_class. repeat split.
  - intros ->. reflexivity.
  - intros ->. reflexivity.
  - intros ->. discriminate H.
  - intros ->. discriminate H.
  - intros [H1 H2]. now rewrite !eqb_false_of.
Qed.

Lemma severity_badge_classes_witness :
  severity_class "critical" = "bg-green-200 text-green-900".
Proof.
  apply (proj2 (proj2 (severity_badge_classes "critical"))).
  split; discriminate.
Defined.

Lemma stats_strip_reads_three_keys (st st' : ReviewStats) :
  total_comments st = total_comments st' ->
  (forall key, In key ["high"; "medium"; "low"] ->
     by_severity st !! key = by_severity st' !! key) ->
  statsStrip st = statsStrip st'.
Proof.
  intros Ht Hk. unfold statsStrip.
  rewrite Ht, (Hk "high"), (Hk "medium"), (Hk "low") by (cbn; auto).
  reflexivity.
Qed.

(** X21.  The result panel reads of a response its comments, its summary,
    the total and the counts under the keys high, medium and low, and no
    more: the status string of the response, the counts by agent and a
    count under any other key (a critical bucket, say) never reach the
    page. *)
Theorem result_panel_reads (r r' : ReviewResponse) :
  comments (review r) = comments (review r') ->
  summary (review r) = summary (review r') ->
  total_comments (stats (review r)) = total_comments (stats (review r')) ->
  (forall key, In key ["high"; "medium"; "low"] ->
     by_severity (stats (review r)) !! key
     = by_severity (stats (review r')) !! key) ->
  resultPanel (Some r) = resultPanel (Some r').
Proof.
  intros Hc Hs Ht Hk. unfold resultPanel.
  now rewrite Hc, Hs, (stats_strip_reads_three_keys _ _ Ht Hk).
Qed.

Lemma result_panel_reads_witness :
  resultPanel
    (Some (mkResponse "partial"
             (mkResult [] (mkStats 4 (<["logic" := 4]> ∅) (<["critical" := 4]> ∅))
                       "Four findings.")))
  = resultPanel
      (Some (mkResponse "success" (mkResult [] (mkStats 4 ∅ ∅) "Four findings."))).
Proof.
  apply result_panel_reads; try reflexivity.
  intros key [<-|[<-|[<-|[]]]]; reflexivity.
Defined.

(** X22.  A comment on line zero of a named file: the zero is falsy, so the
    " : Line " text is left out, but the zero itself is kept, and the
    location reads as the file name with a 0 stuck to it. *)
Theorem location_line_zero_printed c f :
  file c = Some f -> f <> EmptyString -> line c = Some 0 ->
  locationLine c = [El "p" [El "Folder" []; Text f; Num (Int 0)]]
  /\ location_text c = Some (f +:+ "0").
Proof.
  intros Hf Hne Hl. unfold location_text, locationLine. rewrite Hf, Hl.
  destruct f as [|a f]; [congruence|]. cbn. split; reflexivity.
Qed.

Lemma location_line_zero_printed_witness :
  location_text (comment_at (Some "a.py") (Some 0)) = Some "a.py0".
Proof.
  apply (location_line_zero_printed (comment_at (Some "a.py") (Some 0)) "a.py");
    [reflexivity | discriminate | reflexivity].
Defined.

(** X23.  When no base URL is configured, the request still leaves, for
    the address "undefined/review/pr"; and the tip of the network category
    then names no server: its code element is empty. *)
Theorem unset_base_url env s :
  SERVER_URL env = None ->
  List.map url (requests (log (fst (run env s)))) = ["undefined/review/pr"]
  /\ (forall s', errorType s' = Some network ->
      network_tip (SERVER_URL env) s'
      = [El "p" [Text "💡 Tip: Make sure the API server is running at ";
                 El "code" []]]).
Proof.
  intros Hbase. split.
  - destruct (run_cases env s)
      as [(err & Hf & ->) | [(r & err & Hf & Hok & Hd & ->)
        | [(r & d & Hf & Hok & Hd & ->) | (r & Hf & Hok & ->)]]];
      cbn [fst log requests flat_map app List.map review_request url];
      rewrite Hbase; reflexivity.
  - intros s' Ht. unfold network_tip. rewrite Ht, Hbase. reflexivity.
Qed.

Lemma unset_base_url_witness :
  List.map url
    (requests (log (fst (run (mkEnv None (fun _ => Abrupt TypeError_failed_to_fetch) read_review)
                             idle))))
  = ["undefined/review/pr"].
Proof.
  exact (proj1 (unset_base_url
                  (mkEnv None (fun _ => Abrupt TypeError_failed_to_fetch) read_review)
                  idle eq_refl)).
Defined.
